(** * DocVerifier: the Streamlit document Q&A script (app.py)

    A shallow embedding of [app.py].  The script is re-executed from top to
    bottom on every user interaction, against a session store that survives
    between runs.  One run is modelled as a computation over that store which
    logs, in execution order, what it renders and which external services it
    calls, and which either completes or is cut short by an uncaught
    exception.

    The embedding has two layers.  [run_script] is the script from line 24
    on, for arbitrary collaborators (PDF loader, text splitter, embedding
    service, retrieval chain), gathered in [Env]: each may return a value or
    raise.  [app_py] is the whole script: it reads the configuration (lines
    15-22) and runs [run_script] with the chain that lines 139-141 build
    from the FAISS store and the chat model.  What is proved of [run_script]
    for every [Env] holds of [app_py] once the configuration is read. *)

From Stdlib Require Import String.
From Stdlib Require Import List ZArith Bool Lia.
Import ListNotations.
Open Scope string_scope.
Open Scope list_scope.
Open Scope Z_scope.

(** ** Python values used by the script *)

Module Py.

(** [len(l)] *)
Definition len {A} (l : list A) : Z := Z.of_nat (length l).

(** Truth value of a list and of a string: non-empty. *)
Definition truthy_list {A} (l : list A) : bool :=
  match l with [] => false | _ :: _ => true end.

Definition truthy_str (s : string) : bool :=
  match s with EmptyString => false | String _ _ => true end.

(** How a slice bound is read against a sequence of length [n]: a negative
    bound counts from the end, and every bound is clipped to [0, n]. *)
Definition bound (n i : Z) : Z :=
  if i <? 0 then Z.max 0 (i + n) else Z.min i n.

(** [l[start:stop]] *)
Definition slice {A} (l : list A) (start stop : Z) : list A :=
  let s := bound (len l) start in
  let e := bound (len l) stop in
  firstn (Z.to_nat (e - s)) (skipn (Z.to_nat s) l).

(** [l[start:]] *)
Definition slice_from {A} (l : list A) (start : Z) : list A :=
  skipn (Z.to_nat (bound (len l) start)) l.

(** [enumerate(l, start=k)] *)
Fixpoint enumerate {A} (l : list A) (k : Z) : list (Z * A) :=
  match l with
  | [] => []
  | x :: r => (k, x) :: enumerate r (k + 1)
  end.

End Py.

(** ** Data *)

(** A langchain [Document]: the text and where it came from. *)
Record Document := mkDocument {
  page_content : string;
  source : string;
  page : Z
}.

(** A file handed over by the upload control, with the text of its pages. *)
Record UploadedFile := mkUploadedFile {
  file_name : string;
  file_pages : list string
}.

Definition EmbeddingVector := list Z.

(** The FAISS store: the documents it was built from and their vectors. *)
Record VectorIndex := mkVectorIndex {
  index_docs : list Document;
  index_vectors : list EmbeddingVector
}.

(** The dict returned by [retrieval_chain.invoke]; a key that is absent is
    [None]. *)
Record Response := mkResponse {
  r_context : option (list Document);
  r_answer : option string
}.

(** Result of a call that may raise; [Raise] carries [str(e)]. *)
Inductive Exc (A : Type) : Type :=
| Ok (a : A)
| Raise (cause : string).
Arguments Ok {A} a.
Arguments Raise {A} cause.

(** Calls that leave the process. *)
Inductive ExtCall :=
| InitEmbeddings                              (* GoogleGenerativeAIEmbeddings(...) *)
| LoadDirectory (path : string)               (* PyPDFDirectoryLoader(path).load() *)
| SplitDocuments (docs : list Document)       (* text_splitter.split_documents *)
| EmbedDocuments (docs : list Document)       (* embedding requests of FAISS.from_documents *)
| Retrieve (idx : VectorIndex) (q : string)   (* the retriever, inside the chain *)
| ChatModel (ctx : list Document) (q : string) (* the llm, inside the chain *)
| EmbedQuery (q : string).                    (* embeddings.embed_query, by the retriever *)

(** What a run renders, and the calls it makes, in order. *)
Inductive Event :=
| Call (c : ExtCall)
| StSpinner (msg : string)
| StError (msg : string)                 (* st.error *)
| StInfo (msg : string)                  (* st.info *)
| StSuccess (msg : string)               (* st.success *)
| SidebarError (msg : string)            (* st.sidebar.error *)
| SidebarSuccess (msg : string)          (* st.sidebar.success *)
| SidebarTitle (msg : string)
| StTitle (msg : string)
| StSubheader (msg : string)
| StMarkdown (msg : string)
| StWrite (msg : string)                 (* st.write(text) *)
| StWriteSummary (summary : string)      (* st.write("**Summary:**", summary) *)
| DocumentHeading (i : Z)                (* st.markdown(f"**Document {i}:**") *)
| NumberInput (min_value max_value value : Z)
| DownloadButton (data : string).

(** The retrieval chain as seen by the script: the calls it made and its
    response, or the exception it raised. *)
Definition Chain := VectorIndex -> string -> list ExtCall * Exc Response.

Record Env := mkEnv {
  embeddings_init : Exc unit;
  loader_load : string -> Exc (list Document);
  split_documents : list Document -> Exc (list Document);
  embed_documents : list Document -> Exc (list EmbeddingVector);
  retrieval_chain : Chain;
  process_time : string                 (* the text of [end - start:.2f] *)
}.

(** [st.session_state]: an attribute that has not been assigned is [None]. *)
Record SessionState := mkSession {
  embeddings : option unit;
  loader : option string;
  docs : option (list Document);
  text_splitter : option (Z * Z);
  final_documents : option (list Document);
  vectors : option VectorIndex;
  query_history : option (list string)
}.

Definition fresh_session : SessionState :=
  mkSession None None None None None None None.

(** What the user did to trigger the run. *)
Record Inputs := mkInputs {
  uploaded_files : list UploadedFile;
  create_clicked : bool;          (* "Create Vector Store" pressed *)
  prompt1 : string;               (* content of the question box *)
  page_choice : Z                 (* what was entered in "Page number" *)
}.

(** ** Script runs: session store, log, uncaught exceptions *)

Record Run (A : Type) := mkRun {
  outcome : Exc A;              (* completed with a value, or raised *)
  session : SessionState;       (* the store when the run stopped *)
  log : list Event              (* everything rendered and called, in order *)
}.
Arguments mkRun {A} outcome session log.
Arguments outcome {A} r.
Arguments session {A} r.
Arguments log {A} r.

Definition M (A : Type) : Type := SessionState -> Run A.

Definition ret {A} (a : A) : M A := fun s => mkRun (Ok a) s [].

Definition bind {A B} (m : M A) (f : A -> M B) : M B :=
  fun s =>
    match m s with
    | mkRun (Ok a) s1 l1 =>
        match f a s1 with
        | mkRun o s2 l2 => mkRun o s2 (l1 ++ l2)
        end
    | mkRun (Raise c) s1 l1 => mkRun (Raise c) s1 l1
    end.

Declare Scope script_scope.
Delimit Scope script_scope with script.
Notation "x <- m ;; k" := (bind m (fun x => k))
  (at level 61, m at next level, right associativity) : script_scope.
Notation "m ;; k" := (bind m (fun _ => k))
  (at level 61, right associativity) : script_scope.
Open Scope script_scope.

Definition get : M SessionState := fun s => mkRun (Ok s) s [].

Definition modify (f : SessionState -> SessionState) : M unit :=
  fun s => mkRun (Ok tt) (f s) [].

Definition emit (e : Event) : M unit := fun s => mkRun (Ok tt) s [e].

Definition emit_all (es : list Event) : M unit := fun s => mkRun (Ok tt) s es.

Definition raise {A} (cause : string) : M A := fun s => mkRun (Raise cause) s [].

(** An external call: it is logged, then it returns or raises. *)
Definition call {A} (c : ExtCall) (result : Exc A) : M A :=
  fun s => mkRun result s [Call c].

(** [retrieval_chain.invoke(...)]: the chain's own calls are logged. *)
Definition invoke (r : list ExtCall * Exc Response) : M Response :=
  fun s => mkRun (snd r) s (map Call (fst r)).

(** [try: body  except Exception as e: handler(str(e))] *)
Definition try_except {A} (body : M A) (handler : string -> M A) : M A :=
  fun s =>
    match body s with
    | mkRun (Ok a) s1 l1 => mkRun (Ok a) s1 l1
    | mkRun (Raise c) s1 l1 =>
        match handler c s1 with
        | mkRun o s2 l2 => mkRun o s2 (l1 ++ l2)
        end
    end.

(** Assignments to attributes of [st.session_state]. *)
Definition set_embeddings (v : unit) (s : SessionState) : SessionState :=
  mkSession (Some v) (loader s) (docs s) (text_splitter s)
            (final_documents s) (vectors s) (query_history s).

Definition set_loader (v : string) (s : SessionState) : SessionState :=
  mkSession (embeddings s) (Some v) (docs s) (text_splitter s)
            (final_documents s) (vectors s) (query_history s).

Definition set_docs (v : list Document) (s : SessionState) : SessionState :=
  mkSession (embeddings s) (loader s) (Some v) (text_splitter s)
            (final_documents s) (vectors s) (query_history s).

Definition set_text_splitter (v : Z * Z) (s : SessionState) : SessionState :=
  mkSession (embeddings s) (loader s) (docs s) (Some v)
            (final_documents s) (vectors s) (query_history s).

Definition set_final_documents (v : list Document) (s : SessionState)
  : SessionState :=
  mkSession (embeddings s) (loader s) (docs s) (text_splitter s)
            (Some v) (vectors s) (query_history s).

Definition set_vectors (v : VectorIndex) (s : SessionState) : SessionState :=
  mkSession (embeddings s) (loader s) (docs s) (text_splitter s)
            (final_documents s) (Some v) (query_history s).

Definition set_query_history (v : list string) (s : SessionState)
  : SessionState :=
  mkSession (embeddings s) (loader s) (docs s) (text_splitter s)
            (final_documents s) (vectors s) (Some v).

(** ** The script *)

Definition census_directory : string := "./us_census".

(** [FAISS.from_documents(documents, embeddings)]: one request to the
    embedding service for the documents, then the store over them. *)
Definition FAISS_from_documents (env : Env) (documents : list Document)
  : M VectorIndex :=
  vs <- call (EmbedDocuments documents) (embed_documents env documents);;
  ret (mkVectorIndex documents vs).

(** Lines 25-49. *)
Definition vector_embedding (env : Env) : M unit :=
  st <- get;;
  match vectors st with
  | None =>
      emit (StSpinner "Creating vector store...");;
      try_except
        (e <- call InitEmbeddings (embeddings_init env);;
         modify (set_embeddings e);;
         modify (set_loader census_directory);;
         d <- call (LoadDirectory census_directory)
                   (loader_load env census_directory);;
         modify (set_docs d);;
         modify (set_text_splitter (1000, 200));;
         fd <- call (SplitDocuments d) (split_documents env d);;
         modify (set_final_documents fd);;
         if negb (Py.truthy_list fd) then
           emit (StError "No documents were loaded or split correctly.")
         else if Py.len fd =? 0 then
           emit (StError "No documents found in the provided directory.")
         else
           idx <- FAISS_from_documents env fd;;
           modify (set_vectors idx);;
           emit (SidebarSuccess "Vector Store is ready!"))
        (fun cause =>
           emit (StError ("Error creating FAISS vector store: " ++ cause)%string))
  | Some _ => ret tt
  end.

(** Lines 52-54. *)
Definition generate_insights (doc_content : string) : string :=
  "Summary of the document...".

(** Lines 60-64: what pressing "Create Vector Store" does. *)
Definition create_vector_store (env : Env) (files : list UploadedFile)
  : M unit :=
  if Py.truthy_list files then vector_embedding env
  else emit (SidebarError
               "Please upload PDF files before creating the vector store.").

(** Lines 57-64. *)
Definition sidebar (env : Env) (inp : Inputs) : M unit :=
  emit (SidebarTitle "Settings & Actions");;
  if create_clicked inp then create_vector_store env (uploaded_files inp)
  else ret tt.

(** Line 153. *)
Definition total_pages (context : list Document) : Z :=
  Py.len context / 5 + 1.

(** [st.number_input(min_value, max_value, value)]: the control only takes
    a number between its bounds, and holds [value] until one is entered. *)
Definition admits (min_value max_value n : Z) : bool :=
  (min_value <=? n) && (n <=? max_value).

Definition number_input (min_value max_value value choice : Z) : M Z :=
  emit (NumberInput min_value max_value value);;
  ret (if admits min_value max_value choice then choice else value).

(** The slice and numbering of line 159. *)
Definition page_entries (docs : list Document) (page docs_per_page : Z)
  : list (Z * Document) :=
  let start := (page - 1) * docs_per_page in
  let end_ := start + docs_per_page in
  Py.enumerate (Py.slice docs start end_) (start + 1).

Definition render_entry (entry : Z * Document) : list Event :=
  let (i, doc) := entry in
  [ DocumentHeading i;
    StWrite (page_content doc);
    StWriteSummary (generate_insights (page_content doc));
    StWrite "---" ].

(** Lines 156-163. *)
Definition display_documents (docs : list Document) (page docs_per_page : Z)
  : M unit :=
  emit_all (flat_map render_entry (page_entries docs page docs_per_page)).

(** [response['answer']] *)
Definition getitem_answer (response : Response) : M string :=
  match r_answer response with
  | Some a => ret a
  | None => raise "'answer'"
  end.

(** The message of line 176. *)
Definition index_not_ready : string :=
  "Vector store not initialized. Please create the vector store first using the sidebar.".

(** Lines 136-178. *)
Definition output_section (env : Env) (inp : Inputs) : M unit :=
  if Py.truthy_str (prompt1 inp) then
    st <- get;;
    match vectors st with
    | Some idx =>
        emit (StSpinner "Processing your request...");;
        response <- invoke (retrieval_chain env idx (prompt1 inp));;
        emit (StSuccess
                ("Response generated in " ++ process_time env ++ " seconds")%string);;
        emit (StSubheader "Answer:");;
        emit (StWrite (match r_answer response with
                       | Some a => a
                       | None => "No answer found."
                       end));;
        match r_context response with
        | Some context =>
            page_number <-
              number_input 1 (total_pages context) 1 (page_choice inp);;
            display_documents context page_number 5;;
            answer <- getitem_answer response;;
            emit (DownloadButton answer)
        | None => emit (StError "No relevant documents found.")
        end
    | None =>
        emit (StError index_not_ready)
    end
  else emit (StInfo "Please enter a question above to get started.").

(** What lines 187-191 render when [shown] is the part of the history on
    display (the class name is quoted with apostrophes here). *)
Definition history_panel (shown : list string) : list Event :=
  StSubheader "Query History"
    :: StMarkdown "<div class='query-history'>"
    :: map StWrite shown ++ [StMarkdown "</div>"].

(** [st.session_state.query_history.append(q)] *)
Definition append_query (q : string) : M unit :=
  st <- get;;
  match query_history st with
  | Some h => modify (set_query_history (h ++ [q]))
  | None => raise "st.session_state has no attribute 'query_history'"
  end.

(** Lines 181-191. *)
Definition history_section (inp : Inputs) : M unit :=
  st <- get;;
  (match query_history st with
   | None => modify (set_query_history [])
   | Some _ => ret tt
   end);;
  (if Py.truthy_str (prompt1 inp) then append_query (prompt1 inp)
   else ret tt);;
  st' <- get;;
  match query_history st' with
  | Some h => emit_all (history_panel (Py.slice_from h (-5)))
  | None => raise "st.session_state has no attribute 'query_history'"
  end.

(** The style sheet of lines 83-129. *)
Definition custom_css : string := "<style> ... </style>".

(** One execution of app.py. *)
Definition run_script (env : Env) (inp : Inputs) : M unit :=
  sidebar env inp;;
  emit (StTitle "📄 Document Q&A Model");;
  emit (StMarkdown custom_css);;
  emit (StSubheader "Ask a Question");;
  output_section env inp;;
  history_section inp.

(** A session: the script is run once per interaction, each run starting
    from the store the previous one left; an exception ends only its own
    run.  The runs are listed in order. *)
Fixpoint run_session (steps : list (Env * Inputs)) (s : SessionState)
  : list (Run unit) :=
  match steps with
  | [] => []
  | (env, inp) :: rest =>
      let r := run_script env inp s in
      r :: run_session rest (session r)
  end.

(** The store a session ends with. *)
Definition final_session (s : SessionState) (runs : list (Run unit))
  : SessionState :=
  last (map session runs) s.

Definition completed {A} (r : Run A) : Prop :=
  exists a, outcome r = Ok a.

(** The history a store holds; none before the first run. *)
Definition stored_history (s : SessionState) : list string :=
  match query_history s with
  | Some h => h
  | None => []
  end.

(** ** The retrieval chain of langchain

    [create_retrieval_chain(retriever, document_chain)] first asks the
    retriever for the documents matching the input, stores them under
    "context", then runs the document chain (prompt and chat model) on them
    and stores its text under "answer". *)
Definition create_retrieval_chain
  (retriever : VectorIndex -> string -> Exc (list Document))
  (document_chain : list Document -> string -> Exc string) : Chain :=
  fun idx q =>
    match retriever idx q with
    | Raise c => ([Retrieve idx q], Raise c)
    | Ok ctx =>
        match document_chain ctx q with
        | Raise c => ([Retrieve idx q; ChatModel ctx q], Raise c)
        | Ok a =>
            ([Retrieve idx q; ChatModel ctx q],
             Ok (mkResponse (Some ctx) (Some a)))
        end
    end.

(** ** The page count the specification asks for *)

(** [ceil(n / 5)], the number of groups of five needed for [n] chunks. *)
Definition ceil_pages (n : Z) : Z := (n + 4) / 5.

(** The pages 1, 2, ..., k. *)
Definition pages_upto (k : Z) : list Z :=
  map Z.of_nat (seq 1 (Z.to_nat k)).

(** ** Vocabulary of the properties *)

(** The exception a call raises in a given environment, if it does. *)
Definition cause_of {A} (r : Exc A) : option string :=
  match r with
  | Ok _ => None
  | Raise c => Some c
  end.

Definition raised (env : Env) (c : ExtCall) : option string :=
  match c with
  | InitEmbeddings => cause_of (embeddings_init env)
  | LoadDirectory p => cause_of (loader_load env p)
  | SplitDocuments d => cause_of (split_documents env d)
  | EmbedDocuments d => cause_of (embed_documents env d)
  | Retrieve idx q => None
  | ChatModel ctx q => None
  | EmbedQuery q => None
  end.

(** The text of every page the user uploaded. *)
Definition uploaded_text (files : list UploadedFile) : list string :=
  flat_map file_pages files.

(** The external calls of a log, in order. *)
Definition calls_of (events : list Event) : list ExtCall :=
  flat_map (fun e => match e with Call c => [c] | _ => [] end) events.

(** A store whose index, if it has one, is the store over the chunks kept
    in [final_documents], of which there is at least one. *)
Definition well_built (s : SessionState) : Prop :=
  match vectors s with
  | Some idx =>
      final_documents s = Some (index_docs idx) /\ index_docs idx <> []
  | None => True
  end.

Definition completedb {A} (r : Run A) : bool :=
  match outcome r with
  | Ok _ => true
  | Raise _ => false
  end.

(** What a run adds to the history: its question, when there is one and the
    run was not cut short. *)
Definition recorded (step : Env * Inputs) (r : Run unit) : list string :=
  if Py.truthy_str (prompt1 (snd step)) && completedb r
  then [prompt1 (snd step)]
  else [].

(** What a whole session adds to the history. *)
Fixpoint recorded_all (steps : list (Env * Inputs)) (runs : list (Run unit))
  : list string :=
  match steps, runs with
  | step :: steps', r :: runs' => recorded step r ++ recorded_all steps' runs'
  | _, _ => []
  end.

(** The numbers of the document headings a log shows, in order. *)
Definition headings_of (events : list Event) : list Z :=
  flat_map (fun e => match e with DocumentHeading i => [i] | _ => [] end)
           events.

(** ** The whole script: configuration, and the chain of lines 139-141

    [run_script] is the script from line 24 on, for any collaborators.  The
    program itself reads its configuration first (lines 15-22) and builds
    its chain from the FAISS store of the session and the Groq chat model;
    [World] gathers what these depend on, and [app_py] is one execution of
    app.py from its first line. *)

Record World := mkWorld {
  groq_api_key : option string;       (* os.getenv("GROQ_API_KEY") *)
  google_api_key : option string;     (* os.getenv("GOOGLE_API_KEY") *)
  ChatGroq : option string -> Exc unit;
                                      (* ChatGroq(groq_api_key=..., ...) *)
  GoogleGenerativeAIEmbeddings : Exc unit;
  PyPDFDirectoryLoader_load : string -> Exc (list Document);
  text_splitter_split : list Document -> Exc (list Document);
  embeddings_embed_documents : list Document -> Exc (list EmbeddingVector);
  embeddings_embed_query : string -> Exc EmbeddingVector;
  llm : list Document -> string -> Exc string;
                                      (* prompt_template | llm, on the
                                         retrieved documents and the input *)
  elapsed : string
}.

(** Lines 18-22.  Assigning [None] to an entry of [os.environ] raises a
    TypeError; the chat model is constructed after that. *)
Definition configure (w : World) : Exc unit :=
  match google_api_key w with
  | None => Raise "str expected, not NoneType"
  | Some _ => ChatGroq w (groq_api_key w)
  end.

Definition configuration (w : World) : M unit :=
  match configure w with
  | Ok _ => ret tt
  | Raise cause => raise cause
  end.

(** Squared Euclidean distance, the measure of the flat FAISS index. *)
Fixpoint l2_distance (a b : EmbeddingVector) : Z :=
  match a, b with
  | x :: a', y :: b' => (x - y) * (x - y) + l2_distance a' b'
  | _, _ => 0
  end.

Fixpoint insert_by {A} (key : A -> Z) (x : A) (l : list A) : list A :=
  match l with
  | [] => [x]
  | y :: r => if key x <=? key y then x :: l else y :: insert_by key x r
  end.

Fixpoint sort_by {A} (key : A -> Z) (l : list A) : list A :=
  match l with
  | [] => []
  | x :: r => insert_by key x (sort_by key r)
  end.

(** The entries of the store: each document with its vector.
    [FAISS.from_documents] is given one vector per document; a document
    whose vector were missing is taken with the empty vector. *)
Fixpoint pair_vectors (documents : list Document)
  (vs : list EmbeddingVector) : list (Document * EmbeddingVector) :=
  match documents with
  | [] => []
  | d :: documents' => (d, hd [] vs) :: pair_vectors documents' (tl vs)
  end.

(** [similarity_search]: the [k] entries nearest to the query vector. *)
Definition similarity_search (idx : VectorIndex) (qv : EmbeddingVector)
  (k : nat) : list Document :=
  map fst
      (firstn k
         (sort_by (fun entry => l2_distance qv (snd entry))
                  (pair_vectors (index_docs idx) (index_vectors idx)))).

(** Number of documents [vectors.as_retriever()] asks for when, as on line
    140, it is given no search arguments. *)
Definition retriever_k : nat := 4.

(** Lines 139-144: the retriever of the store embeds the question and
    returns its nearest documents; the document chain puts them in the
    prompt and calls the chat model; the response holds both. *)
Definition app_chain (w : World) : Chain :=
  fun idx q =>
    match embeddings_embed_query w q with
    | Raise c => ([Retrieve idx q; EmbedQuery q], Raise c)
    | Ok qv =>
        let context := similarity_search idx qv retriever_k in
        match llm w context q with
        | Raise c =>
            ([Retrieve idx q; EmbedQuery q; ChatModel context q], Raise c)
        | Ok answer =>
            ([Retrieve idx q; EmbedQuery q; ChatModel context q],
             Ok (mkResponse (Some context) (Some answer)))
        end
    end.

(** The collaborators of [run_script] in a given world. *)
Definition env_of (w : World) : Env :=
  mkEnv (GoogleGenerativeAIEmbeddings w) (PyPDFDirectoryLoader_load w)
        (text_splitter_split w) (embeddings_embed_documents w)
        (app_chain w) (elapsed w).

(** One execution of app.py, lines 15-191. *)
Definition app_py (w : World) (inp : Inputs) : M unit :=
  configuration w;;
  run_script (env_of w) inp.

(** A session of executions of app.py. *)
Fixpoint app_session (steps : list (World * Inputs)) (s : SessionState)
  : list (Run unit) :=
  match steps with
  | [] => []
  | (w, inp) :: rest =>
      let r := app_py w inp s in
      r :: app_session rest (session r)
  end.

(** The documents a log displays: each heading number with the text
    written under it. *)
Fixpoint shown_documents (events : list Event) : list (Z * string) :=
  match events with
  | [] => []
  | e :: rest =>
      match e, rest with
      | DocumentHeading i, StWrite text :: rest' =>
          (i, text) :: shown_documents rest'
      | _, _ => shown_documents rest
      end
  end.

(** A numbered chunk as it is displayed: its number and its text. *)
Definition entry_shown (entry : Z * Document) : Z * string :=
  (fst entry, page_content (snd entry)).

(** The chunks of a list with their numbers from 1, as they are displayed. *)
Definition numbered (documents : list Document) : list (Z * string) :=
  combine (map Z.of_nat (seq 1 (length documents)))
          (map page_content documents).

(** ** Sample sessions

    Concrete collaborators and inputs on which the properties below are
    exercised. *)

Module Sample.

Definition doc (text : string) : Document :=
  mkDocument text "us_census/acs.pdf" 0.

(** What lies in the census directory. *)
Definition census : list Document :=
  [doc "Health insurance coverage by state."].

Definition census_2022 : list Document :=
  [doc "Income and poverty, 2022."].

(** What the user uploads. *)
Definition sky_upload : list UploadedFile :=
  [mkUploadedFile "sky.pdf" ["The sky is blue."]].

Definition vector_of (d : Document) : EmbeddingVector :=
  [Z.of_nat (String.length (page_content d))].

(** A chain whose retriever returns the whole store. *)
Definition chain_answers : Chain :=
  create_retrieval_chain (fun idx _ => Ok (index_docs idx))
                         (fun _ _ => Ok "About 92 percent.").

(** A chain whose chat service is unreachable. *)
Definition chain_unreachable : Chain :=
  create_retrieval_chain (fun idx _ => Ok (index_docs idx))
                         (fun _ _ => Raise "Connection error.").

(** Short pages: the splitter returns each page as one chunk. *)
Definition env (directory : list Document) (chain : Chain) : Env :=
  mkEnv (Ok tt) (fun _ => Ok directory) (fun pages => Ok pages)
        (fun chunks => Ok (map vector_of chunks)) chain "0.01".

(** The embedding service is down. *)
Definition env_embedding_down : Env :=
  mkEnv (Ok tt) (fun _ => Ok census) (fun pages => Ok pages)
        (fun _ => Raise "429 quota exceeded") chain_answers "0.01".

(** The pages carry no text: the splitter returns nothing. *)
Definition env_blank_pages : Env :=
  mkEnv (Ok tt) (fun _ => Ok census) (fun _ => Ok [])
        (fun chunks => Ok (map vector_of chunks)) chain_answers "0.01".

Definition ask (q : string) : Inputs := mkInputs [] false q 1.

Definition press_create (files : list UploadedFile) : Inputs :=
  mkInputs files true "" 1.

(** A store holding an index over [census] and a given history. *)
Definition indexed_with (history : option (list string)) : SessionState :=
  mkSession (Some tt) (Some census_directory) (Some census)
            (Some (1000, 200)) (Some census)
            (Some (mkVectorIndex census (map vector_of census))) history.

(** The store as a build from a new session leaves it. *)
Definition indexed : SessionState := indexed_with None.

End Sample.

(** Sample worlds for the whole script. *)

Module Worlds.

Definition docs7 : list Document :=
  map Sample.doc ["a"; "bb"; "ccc"; "dddd"; "eeeee"; "ffffff"; "ggggggg"].

(** Keys set, every service answering, seven short pages in the directory. *)
Definition working : World :=
  mkWorld (Some "gsk") (Some "AIza") (fun _ => Ok tt) (Ok tt)
          (fun _ => Ok docs7) (fun pages => Ok pages)
          (fun chunks => Ok (map Sample.vector_of chunks))
          (fun q => Ok [Z.of_nat (String.length q)])
          (fun _ _ => Ok "About 92 percent.") "0.01".

(** GOOGLE_API_KEY is not set. *)
Definition no_google_key : World :=
  mkWorld (Some "gsk") None (fun _ => Ok tt) (Ok tt)
          (fun _ => Ok docs7) (fun pages => Ok pages)
          (fun chunks => Ok (map Sample.vector_of chunks))
          (fun q => Ok [Z.of_nat (String.length q)])
          (fun _ _ => Ok "About 92 percent.") "0.01".

(** The store after a build in [working]. *)
Definition built : SessionState :=
  session (app_py working (Sample.press_create Sample.sky_upload)
                  fresh_session).

End Worlds.

(** * Properties *)

(** ** Lists, slices and numbering *)

Section ListFacts.
Context {A : Type}.
Implicit Types (l : list A) (a b : nat).

Lemma len_nonneg l : 0 <= Py.len l.
Proof. unfold Py.len. lia. Qed.

Lemma firstn_plus a b l :
  firstn (a + b) l = firstn a l ++ firstn b (skipn a l).
Proof.
  revert l. induction a as [|a IH]; intros l; [reflexivity|].
  destruct l as [|x l]; simpl.
  - now rewrite firstn_nil.
  - now rewrite IH.
Qed.

(** A slice with a non-negative start is a prefix of a suffix. *)
Lemma slice_window l (s w : Z) :
  0 <= s -> 0 <= w ->
  Py.slice l s (s + w) = firstn (Z.to_nat w) (skipn (Z.to_nat s) l).
Proof.
  intros Hs Hw. unfold Py.slice, Py.bound.
  destruct (Z.ltb_spec s 0); [lia|].
  destruct (Z.ltb_spec (s + w) 0); [lia|].
  pose proof (len_nonneg l) as Hn. unfold Py.len in *.
  destruct (Z_le_gt_dec s (Z.of_nat (length l))) as [Hle|Hgt].
  - rewrite (Z.min_l s) by lia.
    destruct (Z_le_gt_dec (s + w) (Z.of_nat (length l))).
    + rewrite Z.min_l by lia. f_equal. lia.
    + rewrite Z.min_r by lia.
      rewrite !firstn_all2; rewrite ?length_skipn; auto; lia.
  - rewrite (Z.min_r s) by lia.
    rewrite !skipn_all2 by lia. now rewrite !firstn_nil.
Qed.

Lemma enumerate_length l k : length (Py.enumerate l k) = length l.
Proof. revert k. induction l; intros; simpl; auto. Qed.

Lemma enumerate_snd l k : map snd (Py.enumerate l k) = l.
Proof. revert k. induction l; intros; simpl; f_equal; auto. Qed.

Lemma enumerate_fst l k :
  map fst (Py.enumerate l k)
  = map (fun i => k + Z.of_nat i) (seq 0 (length l)).
Proof.
  revert k. induction l as [|x l IH]; intros k; [reflexivity|].
  simpl. f_equal; [lia|].
  rewrite IH, <- seq_shift, map_map.
  apply map_ext. intros i. lia.
Qed.

Lemma enumerate_firstn a l k :
  Py.enumerate (firstn a l) k = firstn a (Py.enumerate l k).
Proof.
  revert l k. induction a as [|a IH]; intros [|x l] k; simpl; auto.
  now rewrite IH.
Qed.

Lemma enumerate_skipn b l k :
  Py.enumerate (skipn b l) (k + Z.of_nat b) = skipn b (Py.enumerate l k).
Proof.
  revert l k. induction b as [|b IH]; intros l k.
  - simpl. f_equal. lia.
  - destruct l as [|x l]; [reflexivity|]. simpl skipn.
    rewrite <- IH. f_equal. lia.
Qed.

(** Consecutive windows of width [w] tile a prefix. *)
Lemma windows_tile (w : nat) l k :
  concat (map (fun j => firstn w (skipn (w * j) l)) (seq 0 k))
  = firstn (w * k) l.
Proof.
  induction k as [|k IH].
  - simpl. now rewrite Nat.mul_0_r.
  - rewrite seq_S, map_app, concat_app, IH. simpl.
    rewrite app_nil_r, Nat.mul_succ_r. symmetry. apply firstn_plus.
Qed.

End ListFacts.

(** ** Pagination of the supporting chunks *)

Lemma ceil_pages_covers (n : Z) : 0 <= n -> n <= 5 * ceil_pages n.
Proof.
  intros Hn. unfold ceil_pages.
  pose proof (Z.div_mod (n + 4) 5 ltac:(lia)).
  pose proof (Z.mod_pos_bound (n + 4) 5 ltac:(lia)). lia.
Qed.

Lemma ceil_pages_nonneg (n : Z) : 0 <= n -> 0 <= ceil_pages n.
Proof. intros. unfold ceil_pages. apply Z.div_pos; lia. Qed.

(** The script's page count against the ceiling: one more exactly when the
    number of chunks is a multiple of five. *)
Lemma total_pages_vs_ceiling (context : list Document) :
  total_pages context
  = ceil_pages (Py.len context)
    + (if Py.len context mod 5 =? 0 then 1 else 0).
Proof.
  unfold total_pages, ceil_pages.
  pose proof (len_nonneg context) as Hn.
  set (n := Py.len context) in *.
  pose proof (Z.div_mod n 5 ltac:(lia)) as Hd.
  pose proof (Z.mod_pos_bound n 5 ltac:(lia)) as Hb.
  destruct (Z.eqb_spec (n mod 5) 0) as [E|E].
  - assert ((n + 4) / 5 = n / 5) as ->; [|lia].
    symmetry. apply (Z.div_unique (n + 4) 5 (n / 5) 4); lia.
  - assert ((n + 4) / 5 = n / 5 + 1) as ->; [|lia].
    symmetry. apply (Z.div_unique (n + 4) 5 (n / 5 + 1) (n mod 5 - 1)); lia.
Qed.

Lemma pages_upto_shift (k : Z) :
  pages_upto k = map (fun j => Z.of_nat (S j)) (seq 0 (Z.to_nat k)).
Proof. unfold pages_upto. now rewrite <- seq_shift, map_map. Qed.

(** Page [j+1] shows the [j]-th window of five numbered chunks. *)
Lemma page_entries_window (docs : list Document) (j : nat) :
  page_entries docs (Z.of_nat (S j)) 5
  = firstn 5 (skipn (5 * j) (Py.enumerate docs 1)).
Proof.
  unfold page_entries.
  replace ((Z.of_nat (S j) - 1) * 5) with (Z.of_nat (5 * j)) by lia.
  rewrite slice_window by lia. rewrite Nat2Z.id.
  rewrite enumerate_firstn. f_equal.
  rewrite Z.add_comm. apply enumerate_skipn.
Qed.

Lemma page_slice_window (docs : list Document) (j : nat) :
  Py.slice docs ((Z.of_nat (S j) - 1) * 5) ((Z.of_nat (S j) - 1) * 5 + 5)
  = firstn 5 (skipn (5 * j) docs).
Proof.
  replace ((Z.of_nat (S j) - 1) * 5) with (Z.of_nat (5 * j)) by lia.
  rewrite slice_window by lia. now rewrite Nat2Z.id.
Qed.

(** The slices and the numbered entries of the pages 1 .. ceil(N/5), taken
    page after page, are the chunks in order, numbered from 1. *)
Lemma page_slices_tile (docs : list Document) :
  let valid_pages := pages_upto (ceil_pages (Py.len docs)) in
  concat (map (fun p => Py.slice docs ((p - 1) * 5) ((p - 1) * 5 + 5))
              valid_pages) = docs
  /\ concat (map (fun p => page_entries docs p 5) valid_pages)
     = Py.enumerate docs 1
  /\ map fst (Py.enumerate docs 1)
     = map (fun i => 1 + Z.of_nat i) (seq 0 (length docs)).
Proof.
  intros valid_pages. subst valid_pages.
  pose proof (ceil_pages_covers _ (len_nonneg docs)) as Hc.
  pose proof (ceil_pages_nonneg _ (len_nonneg docs)) as Hp.
  rewrite pages_upto_shift, !map_map.
  repeat split.
  - rewrite (map_ext _ _ (page_slice_window docs)), (windows_tile 5).
    apply firstn_all2. unfold Py.len in *. lia.
  - rewrite (map_ext _ _ (page_entries_window docs)), (windows_tile 5).
    apply firstn_all2. rewrite enumerate_length. unfold Py.len in *. lia.
  - apply enumerate_fst.
Qed.

(** ** Proof tools for runs *)

Ltac unfold_run :=
  unfold run_script, sidebar, output_section, history_section, append_query,
    create_vector_store, vector_embedding, FAISS_from_documents,
    display_documents, number_input, getitem_answer,
    try_except, bind, call, invoke, emit, emit_all, modify, get, ret, raise.

(** Split on what the collaborators of the build answer, one call after the
    other, as far as the build gets. *)
Ltac build_cases :=
  repeat (cbn;
          match goal with
          | |- context [embeddings_init ?e] =>
              destruct (embeddings_init e) as [[]|?] eqn:?
          | |- context [loader_load ?e ?p] =>
              destruct (loader_load e p) as [?|?] eqn:?
          | |- context [split_documents ?e ?d] =>
              destruct (split_documents e d) as [[|? ?]|?] eqn:?
          | |- context [embed_documents ?e ?d] =>
              destruct (embed_documents e d) as [?|?] eqn:?
          end);
  cbn.

(** A member of a literal log is one of its entries. *)
Ltac in_log H :=
  repeat (destruct H as [H|H]; [try discriminate H|]); try contradiction H.

(** Point at an entry of a literal log. *)
Ltac find_in := cbn; repeat first [left; reflexivity | right].

(** ** Building the vector store *)

(** The build handler never lets an exception escape. *)
Lemma create_vector_store_completes env files st :
  outcome (create_vector_store env files st) = Ok tt.
Proof.
  unfold_run. destruct files; cbn; [reflexivity|].
  destruct (vectors st); [reflexivity|]. build_cases; reflexivity.
Qed.

(** The build handler leaves the query history alone. *)
Lemma create_vector_store_history env files st :
  query_history (session (create_vector_store env files st))
  = query_history st.
Proof.
  unfold_run. destruct files; cbn; [reflexivity|].
  destruct (vectors st); [reflexivity|]. build_cases; reflexivity.
Qed.

(** An index that is there stays there. *)
Lemma create_vector_store_keeps_index env files st idx :
  vectors st = Some idx ->
  create_vector_store env files st
  = mkRun (Ok tt) st
      (if Py.truthy_list files then []
       else [SidebarError
               "Please upload PDF files before creating the vector store."]).
Proof.
  intros Hv. unfold_run. destruct files; cbn; [reflexivity|].
  now rewrite Hv.
Qed.

(** The sample store with an index is what a build from a new session
    leaves. *)
Example sample_indexed_is_built :
  session (create_vector_store
             (Sample.env Sample.census Sample.chain_answers)
             Sample.sky_upload fresh_session)
  = Sample.indexed.
Proof. reflexivity. Qed.

(** C3 (as amended): when an index already exists, pressing "Create Vector
    Store" again leaves the store exactly as it was, the existing index
    included, and makes no call to the loader, the splitter or the embedding
    service.  With files uploaded the handler renders nothing at all: the
    build is skipped without a message.  (With no file uploaded the only
    thing rendered is the request to upload files.) *)
Theorem rebuild_is_skipped env files st idx :
  vectors st = Some idx ->
  let r := create_vector_store env files st in
  outcome r = Ok tt
  /\ session r = st
  /\ vectors (session r) = Some idx
  /\ (forall c, ~ In (Call c) (log r))
  /\ (Py.truthy_list files = true -> log r = [])
  /\ (files = [] ->
      log r = [SidebarError
                 "Please upload PDF files before creating the vector store."]).
Proof.
  intros Hv r. subst r. rewrite (create_vector_store_keeps_index _ _ _ _ Hv).
  cbn. repeat split; auto.
  - intros c H. destruct (Py.truthy_list files); cbn in H; in_log H.
  - intros ->. reflexivity.
  - intros ->. reflexivity.
Qed.

Lemma rebuild_is_skipped_witness :
  vectors Sample.indexed
  = Some (mkVectorIndex Sample.census (map Sample.vector_of Sample.census))
  /\ session (create_vector_store
                (Sample.env Sample.census_2022 Sample.chain_answers)
                Sample.sky_upload Sample.indexed)
     = Sample.indexed
  /\ log (create_vector_store
            (Sample.env Sample.census_2022 Sample.chain_answers)
            Sample.sky_upload Sample.indexed)
     = [].
Proof.
  split; [reflexivity|].
  destruct (rebuild_is_skipped
              (Sample.env Sample.census_2022 Sample.chain_answers)
              Sample.sky_upload Sample.indexed
              (mkVectorIndex Sample.census
                             (map Sample.vector_of Sample.census))
              eq_refl) as [_ [Hs [_ [_ [Hl _]]]]].
  split; [exact Hs|exact (Hl eq_refl)].
Defined.

(** C3 (the claim fails): with an index over the old directory in place and
    the directory changed since, pressing the button again keeps the old
    index, calls nothing, and does not install the index a build over the
    present directory gives. *)
Lemma rebuild_keeps_old_index :
  let env := Sample.env Sample.census_2022 Sample.chain_answers in
  let r := create_vector_store env Sample.sky_upload Sample.indexed in
  vectors Sample.indexed
  = Some (mkVectorIndex Sample.census (map Sample.vector_of Sample.census))
  /\ vectors (session r) = vectors Sample.indexed
  /\ log r = []
  /\ vectors (session (create_vector_store env Sample.sky_upload
                                           fresh_session))
     = Some (mkVectorIndex Sample.census_2022
                           (map Sample.vector_of Sample.census_2022))
  /\ vectors (session r)
     <> vectors (session (create_vector_store env Sample.sky_upload
                                              fresh_session)).
Proof. cbv zeta. repeat split; try reflexivity. discriminate. Qed.

(** C2 (as amended): with files uploaded and no index yet, the index is
    built over the chunks of the documents loaded from the fixed directory
    ./us_census; the uploaded files only gate the action, and which files
    they are changes nothing. *)
Theorem index_built_over_census_directory env files st pages chunks vs :
  Py.truthy_list files = true ->
  vectors st = None ->
  embeddings_init env = Ok tt ->
  loader_load env census_directory = Ok pages ->
  split_documents env pages = Ok chunks ->
  chunks <> [] ->
  embed_documents env chunks = Ok vs ->
  vectors (session (create_vector_store env files st))
  = Some (mkVectorIndex chunks vs)
  /\ In (Call (LoadDirectory "./us_census"))
        (log (create_vector_store env files st))
  /\ (forall files', Py.truthy_list files' = true ->
      create_vector_store env files' st = create_vector_store env files st).
Proof.
  intros Hf Hv Hi Hl Hs Hne He. split; [|split].
  - unfold_run. rewrite Hf, Hv, Hi, Hl. cbn. rewrite Hs.
    destruct chunks as [|c chunks]; [congruence|]. cbn. now rewrite He.
  - unfold_run. rewrite Hf, Hv, Hi, Hl. cbn. rewrite Hs.
    destruct chunks as [|c chunks]; [congruence|]. cbn. rewrite He. cbn.
    auto.
  - intros files' Hf'. unfold create_vector_store. now rewrite Hf, Hf'.
Qed.

Lemma index_built_over_census_directory_witness :
  vectors (session (create_vector_store
                      (Sample.env Sample.census Sample.chain_answers)
                      Sample.sky_upload fresh_session))
  = Some (mkVectorIndex Sample.census (map Sample.vector_of Sample.census)).
Proof.
  apply (index_built_over_census_directory
           (Sample.env Sample.census Sample.chain_answers)
           Sample.sky_upload fresh_session Sample.census Sample.census
           (map Sample.vector_of Sample.census));
    try reflexivity.
  discriminate.
Defined.

(** C2 (the claim fails): the user uploads a PDF whose only page reads
    "The sky is blue."; the index that is built holds the census document
    and nothing of the upload. *)
Lemma index_ignores_uploaded_files :
  let r := create_vector_store
             (Sample.env Sample.census Sample.chain_answers)
             Sample.sky_upload fresh_session in
  uploaded_text Sample.sky_upload = ["The sky is blue."]
  /\ exists idx,
       vectors (session r) = Some idx
       /\ map page_content (index_docs idx)
          = ["Health insurance coverage by state."]
       /\ (forall t, In t (uploaded_text Sample.sky_upload) ->
                     ~ In t (map page_content (index_docs idx))).
Proof.
  cbv zeta. split; [reflexivity|].
  eexists. split; [reflexivity|]. split; [reflexivity|].
  intros t Ht Hin. cbn in Ht, Hin.
  destruct Ht as [<-|[]]. destruct Hin as [Hin|[]]. discriminate Hin.
Qed.

(** C8: when "Create Vector Store" is pressed with no file, or the build's
    splitting returns no chunk, an error is shown, the embedding service is
    not called, no index is constructed, and the index held before (present
    or absent) is the one held after. *)
Theorem empty_build_reports_and_keeps_index env files st :
  let r := create_vector_store env files st in
  (files = []
   \/ exists pages, In (Call (SplitDocuments pages)) (log r)
                    /\ split_documents env pages = Ok []) ->
  (exists msg, In (SidebarError msg) (log r) \/ In (StError msg) (log r))
  /\ (forall chunks, ~ In (Call (EmbedDocuments chunks)) (log r))
  /\ (forall msg, ~ In (SidebarSuccess msg) (log r))
  /\ vectors (session r) = vectors st.
Proof.
  intros r H. subst r. destruct H as [->|[pages [Hin Hs]]].
  - cbn. repeat split.
    + eexists. left. left. reflexivity.
    + intros chunks Hc. in_log Hc.
    + intros msg Hc. in_log Hc.
  - revert Hin. unfold_run. destruct files as [|f files]; cbn.
    { intros Hin. in_log Hin. }
    destruct (vectors st) eqn:Hv; cbn.
    { intros []. }
    build_cases; intros Hin; in_log Hin;
      try (injection Hin as <-; congruence).
    injection Hin as <-.
    repeat split; auto.
    + eexists. right. do 4 right. left. reflexivity.
    + intros chunks Hc. in_log Hc.
    + intros msg Hc. in_log Hc.
Qed.

Lemma empty_build_reports_and_keeps_index_witness :
  (forall chunks,
     ~ In (Call (EmbedDocuments chunks))
          (log (create_vector_store Sample.env_blank_pages Sample.sky_upload
                                    fresh_session)))
  /\ vectors (session (create_vector_store Sample.env_blank_pages
                                           Sample.sky_upload fresh_session))
     = None
  /\ vectors (session (create_vector_store Sample.env_blank_pages []
                                           Sample.indexed))
     = vectors Sample.indexed.
Proof.
  split; [|split].
  - apply (empty_build_reports_and_keeps_index
             Sample.env_blank_pages Sample.sky_upload fresh_session).
    right. exists Sample.census. split; [|reflexivity].
    cbn. do 3 right. left. reflexivity.
  - apply (empty_build_reports_and_keeps_index
             Sample.env_blank_pages Sample.sky_upload fresh_session).
    right. exists Sample.census. split; [|reflexivity].
    cbn. do 3 right. left. reflexivity.
  - apply (empty_build_reports_and_keeps_index
             Sample.env_blank_pages [] Sample.indexed).
    left. reflexivity.
Defined.

(** C9: when a call made by the build raises, the exception is caught, an
    error ending in its cause is shown, nothing is reported ready, and the
    'vectors' field is what it was before the action. *)
Theorem failed_build_installs_nothing env files st c cause :
  let r := create_vector_store env files st in
  In (Call c) (log r) ->
  raised env c = Some cause ->
  outcome r = Ok tt
  /\ In (StError ("Error creating FAISS vector store: " ++ cause)%string)
        (log r)
  /\ (forall msg, ~ In (SidebarSuccess msg) (log r))
  /\ vectors (session r) = vectors st
  /\ vectors (session r) = None.
Proof.
  intros r. subst r. unfold_run. destruct files as [|f files]; cbn.
  { intros Hin. in_log Hin. }
  destruct (vectors st) eqn:Hv; cbn.
  { intros []. }
  build_cases; intros Hin Hr; in_log Hin;
    injection Hin as <-; cbn in Hr;
    repeat match goal with
           | E : _ = _, R : cause_of ?x = Some _ |- _ =>
               rewrite E in R; cbn in R
           end;
    try discriminate Hr; injection Hr as <-;
    (split; [reflexivity|];
     split; [find_in|];
     split; [intros msg Hc; in_log Hc|];
     split; assumption).
Qed.

Lemma failed_build_installs_nothing_witness :
  In (StError "Error creating FAISS vector store: 429 quota exceeded")
     (log (create_vector_store Sample.env_embedding_down Sample.sky_upload
                               fresh_session))
  /\ vectors (session (create_vector_store Sample.env_embedding_down
                                           Sample.sky_upload fresh_session))
     = None.
Proof.
  split.
  - apply (failed_build_installs_nothing
             Sample.env_embedding_down Sample.sky_upload fresh_session
             (EmbedDocuments Sample.census) "429 quota exceeded").
    + cbn. do 4 right. left. reflexivity.
    + reflexivity.
  - apply (failed_build_installs_nothing
             Sample.env_embedding_down Sample.sky_upload fresh_session
             (EmbedDocuments Sample.census) "429 quota exceeded").
    + cbn. do 4 right. left. reflexivity.
    + reflexivity.
Defined.

(** ** One run of the script, piece by piece *)

Lemma sidebar_completes env inp st : outcome (sidebar env inp st) = Ok tt.
Proof.
  unfold sidebar, bind, emit, ret. cbn.
  destruct (create_clicked inp); [|reflexivity].
  pose proof (create_vector_store_completes env (uploaded_files inp) st) as H.
  destruct (create_vector_store env (uploaded_files inp) st) as [o s l].
  cbn in *. now subst o.
Qed.

Lemma sidebar_history env inp st :
  query_history (session (sidebar env inp st)) = query_history st.
Proof.
  unfold sidebar, bind, emit, ret. cbn.
  destruct (create_clicked inp); [|reflexivity].
  pose proof (create_vector_store_history env (uploaded_files inp) st) as H.
  pose proof (create_vector_store_completes env (uploaded_files inp) st) as Ho.
  destruct (create_vector_store env (uploaded_files inp) st) as [o s l].
  cbn in *. now subst o.
Qed.

(** When the button is not pressed the sidebar changes nothing. *)
Lemma sidebar_idle env inp st :
  create_clicked inp = false ->
  sidebar env inp st = mkRun (Ok tt) st [SidebarTitle "Settings & Actions"].
Proof. intros H. unfold sidebar, bind, emit, ret. now rewrite H. Qed.

(** The sidebar never calls the retriever or the chat model. *)
Lemma sidebar_no_chain_call env inp st c :
  In (Call c) (log (sidebar env inp st)) ->
  match c with
  | Retrieve _ _ | ChatModel _ _ => False
  | _ => True
  end.
Proof.
  unfold_run. cbn. destruct (create_clicked inp); cbn.
  2:{ intros H. in_log H. }
  destruct (uploaded_files inp); cbn.
  { intros H. in_log H. }
  destruct (vectors st); cbn.
  { intros H. in_log H. }
  build_cases; intros H; in_log H; injection H as <-; exact I.
Qed.

(** What the history section does to the store and what it shows. *)
Lemma history_section_run inp s :
  let h := stored_history s
           ++ (if Py.truthy_str (prompt1 inp) then [prompt1 inp] else []) in
  let r := history_section inp s in
  outcome r = Ok tt
  /\ query_history (session r) = Some h
  /\ vectors (session r) = vectors s
  /\ log r = history_panel (Py.slice_from h (-5)).
Proof.
  unfold history_section, append_query, stored_history,
    bind, get, modify, emit_all, ret, raise.
  destruct (query_history s) as [h0|] eqn:Hq; cbn;
    destruct (Py.truthy_str (prompt1 inp)); cbn;
    rewrite ?Hq; cbn; rewrite ?app_nil_r; auto.
Qed.

(** Sequencing a part that completes, three renderings, and two more
    parts. *)
Lemma sequence_run (sb out h : M unit) (e1 e2 e3 : Event) s :
  outcome (sb s) = Ok tt ->
  (sb;; emit e1;; emit e2;; emit e3;; out;; h) s
  = let o := out (session (sb s)) in
    let front := log (sb s) ++ [e1; e2; e3] ++ log o in
    match outcome o with
    | Ok _ =>
        let r := h (session o) in
        mkRun (outcome r) (session r) (front ++ log r)
    | Raise c => mkRun (Raise c) (session o) front
    end.
Proof.
  intros Hs. unfold bind, emit.
  destruct (sb s) as [o1 s1 l1]. cbn in Hs. subst o1. cbn.
  destruct (out s1) as [[u|c] s2 l2]; cbn; [|reflexivity].
  destruct (h s2) as [o3 s3 l3]. cbn.
  f_equal. now rewrite <- !app_assoc.
Qed.

(** The script is the sidebar, the headings, the output section and, if the
    output section did not raise, the history section. *)
Lemma run_script_sections env inp st :
  let sb := sidebar env inp st in
  let out := output_section env inp (session sb) in
  let front := log sb
               ++ [StTitle "📄 Document Q&A Model"; StMarkdown custom_css;
                   StSubheader "Ask a Question"]
               ++ log out in
  run_script env inp st
  = match outcome out with
    | Ok _ =>
        let h := history_section inp (session out) in
        mkRun (outcome h) (session h) (front ++ log h)
    | Raise c => mkRun (Raise c) (session out) front
    end.
Proof.
  exact (sequence_run (sidebar env inp) (output_section env inp)
           (history_section inp) _ _ _ st (sidebar_completes env inp st)).
Qed.

(** The output section with a question and no index. *)
Lemma output_section_not_ready env inp s :
  Py.truthy_str (prompt1 inp) = true ->
  vectors s = None ->
  output_section env inp s
  = mkRun (Ok tt) s
      [StError index_not_ready].
Proof.
  intros Hq Hv. unfold output_section, bind, get, emit. now rewrite Hq, Hv.
Qed.

(** The output section with a question and an index: the chain is invoked
    first; what follows depends on its response. *)
Lemma output_section_ready env inp s idx :
  Py.truthy_str (prompt1 inp) = true ->
  vectors s = Some idx ->
  exists rest,
    log (output_section env inp s)
    = StSpinner "Processing your request..."
        :: map Call (fst (retrieval_chain env idx (prompt1 inp))) ++ rest
    /\ session (output_section env inp s) = s
    /\ match snd (retrieval_chain env idx (prompt1 inp)) with
       | Raise c => outcome (output_section env inp s) = Raise c /\ rest = []
       | Ok response =>
           match r_context response with
           | None =>
               outcome (output_section env inp s) = Ok tt
               /\ In (StError "No relevant documents found.") rest
           | Some context =>
               (forall msg, ~ In (StError msg) rest)
               /\ In (NumberInput 1 (total_pages context) 1) rest
               /\ (r_answer response <> None ->
                   outcome (output_section env inp s) = Ok tt)
           end
       end.
Proof.
  intros Hq Hv. unfold_run. rewrite Hq, Hv.
  destruct (retrieval_chain env idx (prompt1 inp)) as [calls [resp|c]]; cbn.
  - destruct resp as [[context|] [answer|]]; cbn; eexists;
      (split; [reflexivity|]); (split; [reflexivity|]).
    + split; [|split; [find_in|intros _; reflexivity]].
      intros msg H. cbn in H. in_log H.
      apply in_app_or in H. destruct H as [H|H]; [|in_log H].
      apply in_flat_map in H. destruct H as [[i d] [_ H]].
      cbn in H. in_log H.
    + split; [|split; [find_in|intros H; now elim H]].
      intros msg H. cbn in H. in_log H.
      rewrite app_nil_r in H.
      apply in_flat_map in H. destruct H as [[i d] [_ H]].
      cbn in H. in_log H.
    + split; [reflexivity|find_in].
    + split; [reflexivity|find_in].
  - exists []. rewrite app_nil_r. repeat split.
Qed.

(** The output section reads the store and never writes it. *)
Lemma output_section_session env inp s :
  session (output_section env inp s) = s.
Proof.
  unfold_run. destruct (Py.truthy_str (prompt1 inp)); [|reflexivity].
  destruct (vectors s) as [idx|]; [|reflexivity].
  destruct (retrieval_chain env idx (prompt1 inp)) as [calls [resp|c]];
    [|reflexivity].
  destruct resp as [[context|] [answer|]]; reflexivity.
Qed.

Lemma history_panel_no_call shown c : ~ In (Call c) (history_panel shown).
Proof.
  unfold history_panel. intros H. in_log H.
  apply in_app_or in H. destruct H as [H|H]; [|in_log H].
  apply in_map_iff in H. destruct H as [x [H _]]. discriminate H.
Qed.

(** The history after a run: a run that completes has appended its
    question, if there is one, and shows the last five entries; a run that
    raised has not touched the history. *)
Lemma run_script_history env inp st :
  let r := run_script env inp st in
  let h := stored_history st
           ++ (if Py.truthy_str (prompt1 inp) then [prompt1 inp] else []) in
  match outcome r with
  | Ok _ =>
      query_history (session r) = Some h
      /\ exists pre, log r = pre ++ history_panel (Py.slice_from h (-5))
  | Raise _ => query_history (session r) = query_history st
  end.
Proof.
  cbv zeta. rewrite run_script_sections. cbv zeta.
  rewrite output_section_session.
  pose proof (history_section_run inp (session (sidebar env inp st))) as Hh.
  cbv zeta in Hh. destruct Hh as [Ho [Hq [_ Hl]]].
  unfold stored_history in *. rewrite sidebar_history in Hq, Hl.
  destruct (outcome (output_section env inp (session (sidebar env inp st))));
    cbn [outcome session log].
  - rewrite Ho. split; [exact Hq|]. rewrite Hl. eexists. reflexivity.
  - apply sidebar_history.
Qed.

(** ** Questions *)

(** C6: a question submitted while no index has been built gets the
    index-not-ready error, and the run calls neither the retriever nor the
    chat model. *)
Theorem question_without_index env inp st :
  Py.truthy_str (prompt1 inp) = true ->
  vectors (session (sidebar env inp st)) = None ->
  let r := run_script env inp st in
  outcome r = Ok tt
  /\ In (StError index_not_ready) (log r)
  /\ (forall idx q, ~ In (Call (Retrieve idx q)) (log r))
  /\ (forall context q, ~ In (Call (ChatModel context q)) (log r)).
Proof.
  intros Hq Hv r. subst r. rewrite run_script_sections. cbv zeta.
  rewrite (output_section_not_ready _ _ _ Hq Hv). cbn [outcome session log].
  pose proof (history_section_run inp (session (sidebar env inp st))) as Hh.
  cbv zeta in Hh. destruct Hh as [Ho [_ [_ Hl]]]. rewrite Ho, Hl.
  split; [reflexivity|]. split.
  - apply in_or_app. left. apply in_or_app. right. find_in.
  - split; intros a q H;
      (apply in_app_or in H; destruct H as [H|H];
       [apply in_app_or in H; destruct H as [H|H];
        [apply sidebar_no_chain_call in H; exact H | in_log H]
       |exact (history_panel_no_call _ _ H)]).
Qed.

Lemma question_without_index_witness :
  In (StError index_not_ready)
     (log (run_script (Sample.env Sample.census Sample.chain_answers)
                      (Sample.ask "How many are insured?") fresh_session)).
Proof.
  apply (question_without_index
           (Sample.env Sample.census Sample.chain_answers)
           (Sample.ask "How many are insured?") fresh_session);
    reflexivity.
Defined.

(** The log of a run contains the log of its output section. *)
Lemma output_log_in_run env inp st e :
  In e (log (output_section env inp (session (sidebar env inp st)))) ->
  In e (log (run_script env inp st)).
Proof.
  intros H. rewrite run_script_sections. cbv zeta.
  destruct (outcome (output_section env inp (session (sidebar env inp st))));
    cbn [log].
  - apply in_or_app. left. apply in_or_app. right.
    apply in_or_app. right. exact H.
  - apply in_or_app. right. apply in_or_app. right. exact H.
Qed.

(** ** Query history *)

(** A run raises exactly when its output section does. *)
Lemma run_script_outcome env inp st :
  outcome (run_script env inp st)
  = match outcome (output_section env inp (session (sidebar env inp st))) with
    | Ok _ => Ok tt
    | Raise c => Raise c
    end.
Proof.
  rewrite run_script_sections. cbv zeta.
  destruct (outcome (output_section env inp (session (sidebar env inp st))));
    cbn [outcome]; [|reflexivity].
  apply history_section_run.
Qed.

(** A completed run with a question has appended it and shows the last five
    entries of the history. *)
Lemma completed_run_appends env inp st :
  Py.truthy_str (prompt1 inp) = true ->
  completed (run_script env inp st) ->
  let h := stored_history st ++ [prompt1 inp] in
  query_history (session (run_script env inp st)) = Some h
  /\ stored_history (session (run_script env inp st)) = h
  /\ exists pre,
       log (run_script env inp st)
       = pre ++ history_panel (Py.slice_from h (-5)).
Proof.
  intros Hq [a Ha]. pose proof (run_script_history env inp st) as H.
  cbv zeta in *. rewrite Ha, Hq in H. destruct H as [H1 H2].
  unfold stored_history at 2. rewrite H1. auto.
Qed.

Lemma last_cons_default {A} (l : list A) :
  forall a d, last (a :: l) d = last l a.
Proof.
  induction l as [|b l IH]; intros a d; [reflexivity|].
  change (last (a :: b :: l) d) with (last (b :: l) d).
  now rewrite (IH b d), (IH b a).
Qed.

Lemma final_session_cons s r runs :
  final_session s (r :: runs) = final_session (session r) runs.
Proof. unfold final_session. cbn [map]. apply last_cons_default. Qed.

(** Over a session in which every run carries a question and completes, the
    stored history grows by the questions, in order. *)
Lemma session_history steps :
  forall st,
    Forall (fun step => Py.truthy_str (prompt1 (snd step)) = true) steps ->
    Forall completed (run_session steps st) ->
    stored_history (final_session st (run_session steps st))
    = stored_history st ++ map (fun step => prompt1 (snd step)) steps.
Proof.
  induction steps as [|[env inp] steps IH]; intros st Hq Hc.
  - cbn. now rewrite app_nil_r.
  - cbn [run_session] in *. inversion Hq as [|? ? Hq1 Hq']; subst.
    inversion Hc as [|? ? Hc1 Hc']; subst.
    rewrite final_session_cons, (IH _ Hq' Hc').
    destruct (completed_run_appends env inp st Hq1 Hc1) as [_ [-> _]].
    cbn. now rewrite <- app_assoc.
Qed.

(** [l[-5:]] when [l] ends with five given entries. *)
Lemma slice_from_last_five {A} (l : list A) a b c d e :
  Py.slice_from (l ++ [a; b; c; d; e]) (-5) = [a; b; c; d; e].
Proof.
  unfold Py.slice_from, Py.bound, Py.len. rewrite length_app. cbn [length].
  destruct (Z.ltb_spec (-5) 0); [|lia].
  replace (Z.to_nat (Z.max 0 (-5 + Z.of_nat (length l + 5))))
    with (length l + 0)%nat by lia.
  now rewrite skipn_app, skipn_all2, Nat.add_comm, Nat.add_sub by lia.
Qed.

(** C7 (as amended): six non-empty questions q1 .. q6 submitted one run
    after the other, none of the runs being cut short by an exception: the
    stored history is the history held before followed by all six in
    submission order (from a new session, exactly the six), and the last run
    displays exactly q2 .. q6, in that order. *)
Theorem six_questions_history e1 i1 e2 i2 e3 i3 e4 i4 e5 i5 e6 i6 st :
  let steps := [(e1, i1); (e2, i2); (e3, i3); (e4, i4); (e5, i5); (e6, i6)] in
  let runs := run_session steps st in
  Forall (fun inp => Py.truthy_str (prompt1 inp) = true)
         [i1; i2; i3; i4; i5; i6] ->
  Forall completed runs ->
  query_history (final_session st runs)
  = Some (stored_history st
          ++ [prompt1 i1; prompt1 i2; prompt1 i3;
              prompt1 i4; prompt1 i5; prompt1 i6])
  /\ exists pre,
       log (last runs (mkRun (Ok tt) st []))
       = pre ++ history_panel [prompt1 i2; prompt1 i3; prompt1 i4;
                               prompt1 i5; prompt1 i6].
Proof.
  intros steps runs Hq Hc. subst runs steps.
  pose proof (session_history
                [(e1, i1); (e2, i2); (e3, i3); (e4, i4); (e5, i5)] st) as H5.
  cbn [run_session] in *.
  set (r1 := run_script e1 i1 st) in *.
  set (r2 := run_script e2 i2 (session r1)) in *.
  set (r3 := run_script e3 i3 (session r2)) in *.
  set (r4 := run_script e4 i4 (session r3)) in *.
  set (r5 := run_script e5 i5 (session r4)) in *.
  set (r6 := run_script e6 i6 (session r5)) in *.
  repeat (apply Forall_cons_iff in Hq; destruct Hq as [? Hq]).
  repeat (apply Forall_cons_iff in Hc; destruct Hc as [? Hc]).
  assert (E5 : stored_history (session r5)
               = stored_history st
                 ++ [prompt1 i1; prompt1 i2; prompt1 i3; prompt1 i4;
                     prompt1 i5]).
  { apply H5; repeat constructor; assumption. }
  destruct (completed_run_appends e6 i6 (session r5)) as [Q6 [_ [pre L6]]];
    try assumption.
  fold r6 in Q6, L6. rewrite E5 in Q6, L6.
  change (final_session st [r1; r2; r3; r4; r5; r6]) with (session r6).
  change (last [r1; r2; r3; r4; r5; r6] (mkRun (Ok tt) st [])) with r6.
  split.
  - rewrite Q6, <- app_assoc. reflexivity.
  - exists pre. rewrite L6. do 2 f_equal.
    rewrite <- app_assoc. cbn [app].
    change (stored_history st
            ++ [prompt1 i1; prompt1 i2; prompt1 i3; prompt1 i4; prompt1 i5;
                prompt1 i6])
      with (stored_history st
            ++ [prompt1 i1]
            ++ [prompt1 i2; prompt1 i3; prompt1 i4; prompt1 i5; prompt1 i6]).
    rewrite app_assoc. apply slice_from_last_five.
Qed.

Lemma six_questions_history_witness :
  let env := Sample.env Sample.census Sample.chain_answers in
  let runs := run_session
                [(env, Sample.ask "q1"); (env, Sample.ask "q2");
                 (env, Sample.ask "q3"); (env, Sample.ask "q4");
                 (env, Sample.ask "q5"); (env, Sample.ask "q6")]
                Sample.indexed in
  query_history (final_session Sample.indexed runs)
  = Some ["q1"; "q2"; "q3"; "q4"; "q5"; "q6"]
  /\ exists pre,
       log (last runs (mkRun (Ok tt) Sample.indexed []))
       = pre ++ history_panel ["q2"; "q3"; "q4"; "q5"; "q6"].
Proof.
  apply (six_questions_history
           (Sample.env Sample.census Sample.chain_answers) (Sample.ask "q1")
           (Sample.env Sample.census Sample.chain_answers) (Sample.ask "q2")
           (Sample.env Sample.census Sample.chain_answers) (Sample.ask "q3")
           (Sample.env Sample.census Sample.chain_answers) (Sample.ask "q4")
           (Sample.env Sample.census Sample.chain_answers) (Sample.ask "q5")
           (Sample.env Sample.census Sample.chain_answers) (Sample.ask "q6")
           Sample.indexed).
  - repeat constructor.
  - repeat (constructor; [exists tt; reflexivity|]). constructor.
Defined.

(** C7 (the claim fails): six questions are submitted with the index in
    place and the chat service is unreachable while the third is processed;
    that run ends at the chain call, the stored history holds five
    questions without q3, and the last run displays q1, q2, q4, q5, q6. *)
Lemma interrupted_question_is_missing :
  let up := Sample.env Sample.census Sample.chain_answers in
  let down := Sample.env Sample.census Sample.chain_unreachable in
  let runs := run_session
                [(up, Sample.ask "q1"); (up, Sample.ask "q2");
                 (down, Sample.ask "q3"); (up, Sample.ask "q4");
                 (up, Sample.ask "q5"); (up, Sample.ask "q6")]
                Sample.indexed in
  map outcome runs
  = [Ok tt; Ok tt; Raise "Connection error."; Ok tt; Ok tt; Ok tt]
  /\ query_history (final_session Sample.indexed runs)
     = Some ["q1"; "q2"; "q4"; "q5"; "q6"]
  /\ ~ In "q3" (stored_history (final_session Sample.indexed runs))
  /\ exists pre,
       log (last runs (mkRun (Ok tt) Sample.indexed []))
       = pre ++ history_panel ["q1"; "q2"; "q4"; "q5"; "q6"].
Proof.
  cbv zeta. split; [reflexivity|]. split; [reflexivity|]. split.
  - intros H. cbn in H. in_log H.
  - exact (proj2 (proj2 (completed_run_appends
                          (Sample.env Sample.census Sample.chain_answers)
                          (Sample.ask "q6")
                          (Sample.indexed_with
                             (Some ["q1"; "q2"; "q4"; "q5"]))
                          eq_refl (ex_intro _ tt eq_refl)))).
Qed.

(** C10 (as amended): a non-empty question is appended to the query history
    by every run that is not cut short by an exception.  Such are the run
    with no index (the index-not-ready error), the run whose response has no
    context entry ("No relevant documents found.") and the run whose
    response carries an answer.  A run in which the chain call raises stops
    there, and the history is left as it was. *)
Theorem question_appended_when_run_completes env inp st :
  Py.truthy_str (prompt1 inp) = true ->
  let r := run_script env inp st in
  let q := prompt1 inp in
  let ready := vectors (session (sidebar env inp st)) in
  (completed r -> query_history (session r) = Some (stored_history st ++ [q]))
  /\ (ready = None -> completed r)
  /\ (forall idx response,
        ready = Some idx ->
        snd (retrieval_chain env idx q) = Ok response ->
        r_context response = None \/ r_answer response <> None ->
        completed r)
  /\ (forall idx cause,
        ready = Some idx ->
        snd (retrieval_chain env idx q) = Raise cause ->
        outcome r = Raise cause
        /\ query_history (session r) = query_history st).
Proof.
  intros Hq r q ready. subst r q ready. split; [|split; [|split]].
  - intros Hc. now apply completed_run_appends.
  - intros Hv. exists tt. rewrite run_script_outcome.
    now rewrite (output_section_not_ready _ _ _ Hq Hv).
  - intros idx response Hv Hresp Hcase. exists tt.
    rewrite run_script_outcome.
    destruct (output_section_ready env inp _ idx Hq Hv) as [rest [_ [_ Hr]]].
    rewrite Hresp in Hr.
    destruct (r_context response) as [context|].
    + destruct Hcase as [Hcase|Hcase]; [discriminate Hcase|].
      destruct Hr as [_ [_ Hr]]. now rewrite (Hr Hcase).
    + destruct Hr as [Hr _]. now rewrite Hr.
  - intros idx cause Hv Hresp.
    destruct (output_section_ready env inp _ idx Hq Hv) as [rest [_ [_ Hr]]].
    rewrite Hresp in Hr. destruct Hr as [Hr _].
    pose proof (run_script_history env inp st) as Hh. cbv zeta in Hh.
    rewrite run_script_outcome, Hr in *. auto.
Qed.

Lemma question_appended_when_run_completes_witness :
  query_history
    (session (run_script (Sample.env Sample.census Sample.chain_answers)
                         (Sample.ask "How many are insured?") fresh_session))
  = Some ["How many are insured?"].
Proof.
  apply (question_appended_when_run_completes
           (Sample.env Sample.census Sample.chain_answers)
           (Sample.ask "How many are insured?") fresh_session eq_refl).
  exists tt. reflexivity.
Defined.

(** C10 (the claim fails): the index is in place and the chat service is
    unreachable; the chain call raises, the run ends there, and the question
    is not in the history. *)
Lemma failed_answer_is_not_recorded :
  let env := Sample.env Sample.census Sample.chain_unreachable in
  let inp := Sample.ask "How many are insured?" in
  let r := run_script env inp Sample.indexed in
  Py.truthy_str (prompt1 inp) = true
  /\ outcome r = Raise "Connection error."
  /\ query_history (session r) = None
  /\ ~ In (prompt1 inp) (stored_history (session r)).
Proof. cbv zeta. repeat split. intros []. Qed.

(** * Further properties of the script *)

(** ** The page control and the pages *)

Lemma total_pages_range (context : list Document) :
  1 <= total_pages context
  /\ 5 * (total_pages context - 1) <= Py.len context
     < 5 * total_pages context.
Proof.
  unfold total_pages.
  pose proof (len_nonneg context) as Hn.
  pose proof (Z.div_mod (Py.len context) 5 ltac:(lia)) as Hd.
  pose proof (Z.mod_pos_bound (Py.len context) 5 ltac:(lia)) as Hb.
  pose proof (Z.div_pos (Py.len context) 5 Hn ltac:(lia)) as Hq.
  lia.
Qed.

(** X1: the page count is at least 1, so the starting value 1 of the page
    control is always within its bounds, and it is the one number of pages
    of five with 5 * (pages - 1) <= N < 5 * pages. *)
Theorem total_pages_bounds (context : list Document) :
  1 <= total_pages context
  /\ admits 1 (total_pages context) 1 = true
  /\ 5 * (total_pages context - 1) <= Py.len context
     < 5 * total_pages context.
Proof.
  destruct (total_pages_range context) as [H1 H2].
  split; [exact H1|]. split; [|exact H2].
  unfold admits. apply andb_true_intro. split; apply Z.leb_le; lia.
Qed.

(** Page [j+1] is the [j]-th window of five chunks, numbered from 5j+1. *)
Lemma page_entries_shape (docs : list Document) (j : nat) :
  page_entries docs (Z.of_nat (S j)) 5
  = Py.enumerate (firstn 5 (skipn (5 * j) docs)) (Z.of_nat (5 * j) + 1).
Proof.
  unfold page_entries. rewrite page_slice_window. f_equal. lia.
Qed.

(** The entries of a page p >= 1: min(5, max(0, N - 5(p-1))) of them, the
    chunks from position 5(p-1) on, numbered from 5(p-1)+1. *)
Lemma page_entries_of_page (docs : list Document) (p : Z) :
  1 <= p ->
  let entries := page_entries docs p 5 in
  Py.len entries = Z.min 5 (Z.max 0 (Py.len docs - 5 * (p - 1)))
  /\ map snd entries = firstn 5 (skipn (Z.to_nat (5 * (p - 1))) docs)
  /\ map fst entries
     = map (fun i => 5 * (p - 1) + 1 + Z.of_nat i) (seq 0 (length entries)).
Proof.
  intros Hp entries. subst entries.
  assert (Hj : exists j, p = Z.of_nat (S j))
    by (exists (Z.to_nat (p - 1)); lia).
  destruct Hj as [j ->].
  replace (Z.to_nat (5 * (Z.of_nat (S j) - 1))) with (5 * j)%nat by lia.
  rewrite page_entries_shape.
  split; [|split].
  - unfold Py.len.
    rewrite enumerate_length, length_firstn, length_skipn. lia.
  - apply enumerate_snd.
  - rewrite enumerate_fst, enumerate_length.
    apply map_ext. intros i. lia.
Qed.

(** The number of chunks on a page, from its shape. *)
Lemma page_entries_length (docs : list Document) (j : nat) :
  Py.len (page_entries docs (Z.of_nat (S j)) 5)
  = Z.min 5 (Z.max 0 (Py.len docs - 5 * Z.of_nat j)).
Proof.
  rewrite page_entries_shape. unfold Py.len.
  rewrite enumerate_length, length_firstn, length_skipn. lia.
Qed.

(** The entries of the last admitted page are N mod 5, those of every page
    before it five. *)
Lemma last_page_entries (context : list Document) :
  Py.len (page_entries context (total_pages context) 5)
  = Py.len context mod 5
  /\ (page_entries context (total_pages context) 5 = []
      <-> Py.len context mod 5 = 0)
  /\ (forall p, 1 <= p < total_pages context ->
                Py.len (page_entries context p 5) = 5).
Proof.
  pose proof (len_nonneg context) as Hn.
  pose proof (Z.div_mod (Py.len context) 5 ltac:(lia)) as Hd.
  pose proof (Z.mod_pos_bound (Py.len context) 5 ltac:(lia)) as Hb.
  pose proof (Z.div_pos (Py.len context) 5 Hn ltac:(lia)) as Hq.
  assert (Hlast : Py.len (page_entries context (total_pages context) 5)
                  = Py.len context mod 5).
  { unfold total_pages.
    replace (Py.len context / 5 + 1)
      with (Z.of_nat (S (Z.to_nat (Py.len context / 5)))) by lia.
    rewrite page_entries_length. lia. }
  split; [exact Hlast|]. split.
  - rewrite <- Hlast. unfold Py.len.
    destruct (page_entries context (total_pages context) 5); cbn [length].
    + split; reflexivity.
    + split; [discriminate|lia].
  - intros p Hp. unfold total_pages in Hp.
    replace p with (Z.of_nat (S (Z.to_nat (p - 1)))) by lia.
    rewrite page_entries_length. lia.
Qed.

(** The entries of the pages 1 .. total_pages, page after page, are the
    numbered chunks. *)
Lemma admitted_pages_entries (context : list Document) :
  concat (map (fun p => page_entries context p 5)
              (pages_upto (total_pages context)))
  = Py.enumerate context 1
  /\ map snd (Py.enumerate context 1) = context.
Proof.
  split; [|apply enumerate_snd].
  destruct (total_pages_range context) as [H1 [_ H2]].
  rewrite pages_upto_shift, map_map.
  rewrite (map_ext _ _ (page_entries_window context)), (windows_tile 5).
  apply firstn_all2. rewrite enumerate_length. unfold Py.len in *. lia.
Qed.

(** ** What a run does to the session store *)

(** The sidebar is its title followed, when the button is pressed, by the
    build handler. *)
Lemma sidebar_run env inp st :
  session (sidebar env inp st)
  = (if create_clicked inp
     then session (create_vector_store env (uploaded_files inp) st)
     else st)
  /\ log (sidebar env inp st)
     = SidebarTitle "Settings & Actions"
         :: (if create_clicked inp
             then log (create_vector_store env (uploaded_files inp) st)
             else []).
Proof.
  unfold sidebar, bind, emit, ret. cbn.
  destruct (create_clicked inp); [|split; reflexivity].
  pose proof (create_vector_store_completes env (uploaded_files inp) st) as Ho.
  destruct (create_vector_store env (uploaded_files inp) st) as [o s l].
  cbn in *. subst o. split; reflexivity.
Qed.

(** The history section writes the history and nothing else. *)
Lemma history_section_session inp s :
  session (history_section inp s)
  = set_query_history
      (stored_history s
       ++ (if Py.truthy_str (prompt1 inp) then [prompt1 inp] else []))
      s.
Proof.
  unfold history_section, append_query, stored_history, set_query_history,
    bind, get, modify, emit_all, ret, raise.
  destruct s as [e l d t f v [h0|]]; cbn;
    destruct (Py.truthy_str (prompt1 inp)); cbn;
    rewrite ?app_nil_r; reflexivity.
Qed.

(** The store after a run: the store the sidebar left, with the history
    rewritten when the run was not cut short. *)
Lemma run_script_session env inp st :
  session (run_script env inp st)
  = match outcome (run_script env inp st) with
    | Ok _ =>
        set_query_history
          (stored_history st
           ++ (if Py.truthy_str (prompt1 inp) then [prompt1 inp] else []))
          (session (sidebar env inp st))
    | Raise _ => session (sidebar env inp st)
    end.
Proof.
  rewrite run_script_outcome, run_script_sections. cbv zeta.
  rewrite output_section_session.
  destruct (outcome (output_section env inp (session (sidebar env inp st))));
    cbn [session]; [|reflexivity].
  rewrite history_section_session. unfold stored_history.
  now rewrite sidebar_history.
Qed.

(** Only the sidebar touches the index. *)
Lemma run_script_vectors env inp st :
  vectors (session (run_script env inp st))
  = vectors (session (sidebar env inp st)).
Proof.
  rewrite run_script_session.
  destruct (outcome (run_script env inp st)); reflexivity.
Qed.

Lemma run_script_final_documents env inp st :
  final_documents (session (run_script env inp st))
  = final_documents (session (sidebar env inp st)).
Proof.
  rewrite run_script_session.
  destruct (outcome (run_script env inp st)); reflexivity.
Qed.

Lemma sidebar_keeps_index env inp st idx :
  vectors st = Some idx -> session (sidebar env inp st) = st.
Proof.
  intros Hv. rewrite (proj1 (sidebar_run env inp st)).
  destruct (create_clicked inp); [|reflexivity].
  now rewrite (create_vector_store_keeps_index _ _ _ _ Hv).
Qed.

(** X5: once the session holds an index, no sequence of interactions
    changes or removes it, whatever is pressed, uploaded or asked and
    whatever the collaborators answer. *)
Theorem index_is_permanent steps :
  forall st idx,
    vectors st = Some idx ->
    vectors (final_session st (run_session steps st)) = Some idx.
Proof.
  induction steps as [|[env inp] steps IH]; intros st idx Hv; [exact Hv|].
  cbn [run_session]. rewrite final_session_cons. apply IH.
  rewrite run_script_vectors. now rewrite (sidebar_keeps_index _ _ _ _ Hv).
Qed.

Lemma index_is_permanent_witness :
  vectors
    (final_session Sample.indexed
       (run_session
          [(Sample.env Sample.census_2022 Sample.chain_unreachable,
            Sample.press_create Sample.sky_upload);
           (Sample.env_embedding_down, Sample.ask "q")]
          Sample.indexed))
  = Some (mkVectorIndex Sample.census (map Sample.vector_of Sample.census)).
Proof.
  apply (index_is_permanent
           [(Sample.env Sample.census_2022 Sample.chain_unreachable,
             Sample.press_create Sample.sky_upload);
            (Sample.env_embedding_down, Sample.ask "q")]
           Sample.indexed).
  reflexivity.
Defined.

(** The build handler keeps the index and the chunks it was built from
    together. *)
Lemma create_vector_store_well_built env files st :
  well_built st -> well_built (session (create_vector_store env files st)).
Proof.
  unfold well_built. intros Hw.
  destruct (vectors st) as [idx|] eqn:Hv.
  - rewrite (create_vector_store_keeps_index _ _ _ _ Hv). cbn.
    now rewrite Hv.
  - clear Hw. unfold_run. destruct files as [|f files]; cbn.
    { now rewrite Hv. }
    rewrite Hv. build_cases; rewrite ?Hv; auto.
    split; [reflexivity|discriminate].
Qed.

Lemma run_script_well_built env inp st :
  well_built st -> well_built (session (run_script env inp st)).
Proof.
  intros Hw. unfold well_built.
  rewrite run_script_vectors, run_script_final_documents.
  rewrite (proj1 (sidebar_run env inp st)).
  destruct (create_clicked inp); [|exact Hw].
  now apply create_vector_store_well_built.
Qed.

(** X6: in every store a session reaches from a new one, an index, if there
    is one, is the store over exactly the chunks kept in final_documents,
    and these are at least one: an index over nothing is never installed. *)
Theorem reachable_index_is_well_built steps :
  well_built (final_session fresh_session (run_session steps fresh_session)).
Proof.
  assert (H : forall st, well_built st ->
                         well_built (final_session st (run_session steps st))).
  { induction steps as [|[env inp] steps IH]; intros st Hw; [exact Hw|].
    cbn [run_session]. rewrite final_session_cons.
    apply IH. now apply run_script_well_built. }
  apply H. exact I.
Qed.

(** ** The external calls of a run *)

Lemma calls_of_app l1 l2 : calls_of (l1 ++ l2) = calls_of l1 ++ calls_of l2.
Proof. apply flat_map_app. Qed.

Lemma calls_of_map_Call cs : calls_of (map Call cs) = cs.
Proof.
  induction cs as [|c cs IH]; [reflexivity|]. cbn [map].
  change (calls_of (Call c :: map Call cs)) with (c :: calls_of (map Call cs)).
  now rewrite IH.
Qed.

Lemma calls_of_entries entries : calls_of (flat_map render_entry entries) = [].
Proof.
  induction entries as [|[i d] entries IH]; [reflexivity|].
  cbn [flat_map]. rewrite calls_of_app, IH. reflexivity.
Qed.

Lemma calls_of_history_panel shown : calls_of (history_panel shown) = [].
Proof.
  unfold history_panel.
  change (calls_of (map StWrite shown ++ [StMarkdown "</div>"]) = []).
  rewrite calls_of_app. cbn. rewrite app_nil_r.
  induction shown as [|q shown IH]; [reflexivity|exact IH].
Qed.

Lemma in_calls_of c events : In c (calls_of events) <-> In (Call c) events.
Proof.
  unfold calls_of. rewrite in_flat_map. split.
  - intros [e [He Hc]]. destruct e; cbn in Hc; try contradiction.
    destruct Hc as [->|[]]. exact He.
  - intros H. exists (Call c). split; [exact H|now left].
Qed.

(** The chain whose calls the output section makes: that of one invocation
    when there is a question and an index, none otherwise. *)
Lemma output_section_calls env inp s :
  calls_of (log (output_section env inp s))
  = if Py.truthy_str (prompt1 inp)
    then match vectors s with
         | Some idx => fst (retrieval_chain env idx (prompt1 inp))
         | None => []
         end
    else [].
Proof.
  unfold_run. destruct (Py.truthy_str (prompt1 inp)); [|reflexivity].
  destruct (vectors s) as [idx|]; [|reflexivity].
  destruct (retrieval_chain env idx (prompt1 inp)) as [calls [resp|c]];
    cbn -[calls_of app].
  - destruct resp as [[context|] [answer|]]; cbn -[calls_of app];
      rewrite ?calls_of_app, ?calls_of_map_Call, ?calls_of_entries;
      cbn; now rewrite ?app_nil_r.
  - rewrite ?calls_of_app, ?calls_of_map_Call. cbn. now rewrite ?app_nil_r.
Qed.

Lemma run_script_calls env inp st :
  calls_of (log (run_script env inp st))
  = calls_of (log (sidebar env inp st))
    ++ (if Py.truthy_str (prompt1 inp)
        then match vectors (session (sidebar env inp st)) with
             | Some idx => fst (retrieval_chain env idx (prompt1 inp))
             | None => []
             end
        else []).
Proof.
  rewrite run_script_sections. cbv zeta.
  pose proof (output_section_calls env inp (session (sidebar env inp st)))
    as Ho.
  pose proof (history_section_run
                inp (session (output_section
                                env inp (session (sidebar env inp st)))))
    as Hh.
  cbv zeta in Hh. destruct Hh as [_ [_ [_ Hl]]].
  destruct (outcome (output_section env inp (session (sidebar env inp st))));
    cbn [log]; rewrite ?Hl, !calls_of_app, ?calls_of_history_panel, Ho;
    cbn; now rewrite ?app_nil_r.
Qed.

(** X7: beyond what the build handler calls, a run calls exactly what one
    invocation of the retrieval chain calls when there is a question and an
    index, and nothing when either is missing: one round trip per run. *)
Theorem one_chain_invocation_per_run env inp st :
  let r := run_script env inp st in
  let built := sidebar env inp st in
  calls_of (log r)
  = calls_of (log built)
    ++ (if Py.truthy_str (prompt1 inp)
        then match vectors (session built) with
             | Some idx => fst (retrieval_chain env idx (prompt1 inp))
             | None => []
             end
        else [])
  /\ (forall c, In c (calls_of (log built)) ->
                match c with
                | Retrieve _ _ | ChatModel _ _ => False
                | _ => True
                end).
Proof.
  cbv zeta. split; [apply run_script_calls|].
  intros c Hc. apply in_calls_of in Hc.
  exact (sidebar_no_chain_call _ _ _ _ Hc).
Qed.

(** ** Runs that raise, runs without a question *)

(** For any collaborators, the part of the script from line 24 on raises in
    two cases, both with a question and an index in place: the chain call
    raises, or the response has a context entry but no answer entry. *)
Lemma run_raises_iff env inp st cause :
  outcome (run_script env inp st) = Raise cause
  <-> Py.truthy_str (prompt1 inp) = true
      /\ exists idx,
           vectors (session (sidebar env inp st)) = Some idx
           /\ (snd (retrieval_chain env idx (prompt1 inp)) = Raise cause
               \/ exists response,
                    snd (retrieval_chain env idx (prompt1 inp)) = Ok response
                    /\ r_context response <> None
                    /\ r_answer response = None
                    /\ cause = "'answer'").
Proof.
  rewrite run_script_outcome.
  generalize (session (sidebar env inp st)) as s. intros s.
  unfold_run. destruct (Py.truthy_str (prompt1 inp)); cbn.
  2:{ split; [discriminate|intros [H _]; discriminate H]. }
  destruct (vectors s) as [idx|]; cbn.
  2:{ split; [discriminate|intros [_ [idx [H _]]]; discriminate H]. }
  destruct (retrieval_chain env idx (prompt1 inp)) as [calls [resp|c]] eqn:E;
    [destruct resp as [[context|] [answer|]]|]; cbn;
    (split;
     [ intros H;
       first [ discriminate H
             | injection H as <-;
               split; [reflexivity|]; exists idx; split; [reflexivity|];
               rewrite E; cbn;
               first [ left; reflexivity
                     | right; eexists; split; [reflexivity|];
                       repeat split; discriminate ] ]
     | intros [_ [idx' [Hi [H|[resp [H [Hc [Ha Hcause]]]]]]]];
       injection Hi as <-; rewrite E in H; cbn in H;
       first [ discriminate H
             | injection H as <-; cbn in *;
               first [ reflexivity
                     | now elim Hc
                     | discriminate Ha
                     | subst; reflexivity ] ] ]).
Qed.

(** From line 24 on, a run with an empty question box completes, shows the
    invitation to enter a question, and calls nothing beyond the build. *)
Lemma run_without_question env inp st :
  prompt1 inp = "" ->
  let r := run_script env inp st in
  outcome r = Ok tt
  /\ In (StInfo "Please enter a question above to get started.") (log r)
  /\ calls_of (log r) = calls_of (log (sidebar env inp st))
  /\ query_history (session r) = Some (stored_history st)
  /\ exists pre,
       log r = pre ++ history_panel (Py.slice_from (stored_history st) (-5)).
Proof.
  intros Hq r. subst r.
  assert (Ho : outcome (run_script env inp st) = Ok tt).
  { rewrite run_script_outcome. unfold output_section. now rewrite Hq. }
  pose proof (run_script_history env inp st) as Hh. cbv zeta in Hh.
  rewrite Ho, Hq, app_nil_r in Hh. destruct Hh as [Hh1 Hh2].
  split; [exact Ho|]. split; [|split; [|split; assumption]].
  - apply output_log_in_run. unfold output_section. rewrite Hq. now left.
  - rewrite run_script_calls, Hq. apply app_nil_r.
Qed.

(** ** The history over a session *)

(** What one run adds to the stored history. *)
Lemma run_script_recorded env inp st :
  stored_history (session (run_script env inp st))
  = stored_history st ++ recorded (env, inp) (run_script env inp st).
Proof.
  unfold recorded, completedb. cbn [snd].
  rewrite run_script_session.
  destruct (outcome (run_script env inp st)).
  - rewrite andb_true_r. reflexivity.
  - rewrite andb_false_r, app_nil_r. unfold stored_history.
    now rewrite sidebar_history.
Qed.

(** X10: over any session the stored history is what it was at the start
    followed by the questions of the runs that had one and were not cut
    short, in the order of the runs.  Nothing is ever removed, reordered or
    merged: a question submitted again is stored again. *)
Theorem stored_history_of_session steps :
  forall st,
    stored_history (final_session st (run_session steps st))
    = stored_history st ++ recorded_all steps (run_session steps st).
Proof.
  induction steps as [|[env inp] steps IH]; intros st.
  - cbn. now rewrite app_nil_r.
  - cbn [run_session recorded_all]. rewrite final_session_cons, IH.
    rewrite run_script_recorded. now rewrite <- app_assoc.
Qed.

(** [l[-5:]] is the suffix of [l] of length min(5, len(l)). *)
Lemma slice_from_minus_five {A} (l : list A) :
  l = firstn (length l - 5) l ++ Py.slice_from l (-5)
  /\ length (Py.slice_from l (-5)) = Nat.min 5 (length l).
Proof.
  unfold Py.slice_from, Py.bound, Py.len.
  destruct (Z.ltb_spec (-5) 0); [|lia].
  replace (Z.to_nat (Z.max 0 (-5 + Z.of_nat (length l))))
    with (length l - 5)%nat by lia.
  split; [now rewrite firstn_skipn|].
  rewrite length_skipn. lia.
Qed.

(** X11: a run that is not cut short ends by displaying the last
    min(5, n) entries of the n-entry history it has just stored, in stored
    order; the older entries stay stored and are not displayed. *)
Theorem displayed_history_is_last_five env inp st :
  completed (run_script env inp st) ->
  let r := run_script env inp st in
  exists pre older shown,
    log r = pre ++ history_panel shown
    /\ stored_history (session r) = older ++ shown
    /\ length shown = Nat.min 5 (length (stored_history (session r))).
Proof.
  intros [a Ha] r. subst r.
  pose proof (run_script_history env inp st) as Hh. cbv zeta in Hh.
  rewrite Ha in Hh. destruct Hh as [Hq [pre Hl]].
  unfold stored_history at 1 2. rewrite Hq.
  set (h := stored_history st
            ++ (if Py.truthy_str (prompt1 inp) then [prompt1 inp] else []))
    in *.
  destruct (slice_from_minus_five h) as [Hs Hn].
  exists pre, (firstn (length h - 5) h), (Py.slice_from h (-5)).
  split; [exact Hl|]. split; [exact Hs|exact Hn].
Qed.

Lemma displayed_history_is_last_five_witness :
  exists pre older shown,
    log (run_script (Sample.env Sample.census Sample.chain_answers)
                    (Sample.ask "q7")
                    (Sample.indexed_with
                       (Some ["q1"; "q2"; "q3"; "q4"; "q5"; "q6"])))
    = pre ++ history_panel shown
    /\ stored_history
         (session
            (run_script (Sample.env Sample.census Sample.chain_answers)
                        (Sample.ask "q7")
                        (Sample.indexed_with
                           (Some ["q1"; "q2"; "q3"; "q4"; "q5"; "q6"]))))
       = older ++ shown
    /\ length shown = 5%nat.
Proof.
  apply (displayed_history_is_last_five
           (Sample.env Sample.census Sample.chain_answers) (Sample.ask "q7")
           (Sample.indexed_with (Some ["q1"; "q2"; "q3"; "q4"; "q5"; "q6"]))).
  exists tt. reflexivity.
Defined.

(** Without a press of the button a store without an index stays so and
    the run calls nothing. *)
Lemma run_without_press env inp st :
  create_clicked inp = false ->
  vectors st = None ->
  vectors (session (run_script env inp st)) = None
  /\ calls_of (log (run_script env inp st)) = []
  /\ outcome (run_script env inp st) = Ok tt.
Proof.
  intros Hc Hv.
  rewrite run_script_vectors, run_script_calls, run_script_outcome.
  rewrite (sidebar_idle _ _ _ Hc). cbn [session log].
  destruct (Py.truthy_str (prompt1 inp)) eqn:Hq.
  - rewrite (output_section_not_ready _ _ _ Hq Hv), Hv.
    repeat split; assumption || reflexivity.
  - unfold output_section. rewrite Hq. repeat split; assumption.
Qed.

(** From line 24 on: without an index and without a press of the button,
    the runs of a session call nothing and leave the session without index. *)
Lemma nothing_called_without_press steps :
  forall st,
    vectors st = None ->
    Forall (fun step => create_clicked (snd step) = false) steps ->
    Forall (fun r => calls_of (log r) = [] /\ outcome r = Ok tt)
           (run_session steps st)
    /\ vectors (final_session st (run_session steps st)) = None.
Proof.
  induction steps as [|[env inp] steps IH]; intros st Hv Hc.
  - split; [constructor|exact Hv].
  - inversion Hc as [|? ? Hc1 Hc']; subst. cbn [snd] in Hc1.
    destruct (run_without_press env inp st Hc1 Hv) as [Hv' [Hcalls Ho]].
    destruct (IH _ Hv' Hc') as [IH1 IH2].
    cbn [run_session]. rewrite final_session_cons.
    split; [constructor; [split; assumption|exact IH1]|exact IH2].
Qed.

(** ** More on the build *)

(** A build with every collaborator answering and at least one chunk. *)
Lemma build_succeeds env files st pages chunks vs :
  Py.truthy_list files = true ->
  vectors st = None ->
  embeddings_init env = Ok tt ->
  loader_load env census_directory = Ok pages ->
  split_documents env pages = Ok chunks ->
  chunks <> [] ->
  embed_documents env chunks = Ok vs ->
  create_vector_store env files st
  = mkRun (Ok tt)
      (set_vectors (mkVectorIndex chunks vs)
         (set_final_documents chunks
            (set_text_splitter (1000, 200)
               (set_docs pages
                  (set_loader census_directory (set_embeddings tt st))))))
      [StSpinner "Creating vector store..."; Call InitEmbeddings;
       Call (LoadDirectory census_directory); Call (SplitDocuments pages);
       Call (EmbedDocuments chunks); SidebarSuccess "Vector Store is ready!"].
Proof.
  intros Hf Hv Hi Hl Hs Hne He.
  unfold_run. rewrite Hf, Hv, Hi, Hl. cbn. rewrite Hs.
  destruct chunks as [|c chunks]; [congruence|]. cbn. now rewrite He.
Qed.

(** X13: the build handler shows "Vector Store is ready!" exactly when the
    action installed an index in a store that had none: it never reports
    ready after a failed, empty or skipped build, and never installs an
    index without reporting it. *)
Theorem ready_message_iff_installed env files st :
  let r := create_vector_store env files st in
  In (SidebarSuccess "Vector Store is ready!") (log r)
  <-> vectors st = None /\ vectors (session r) <> None.
Proof.
  cbv zeta. unfold_run. destruct files as [|f files]; cbn.
  { split; [intros H; in_log H|intros [H1 H2]; now elim H2]. }
  destruct (vectors st) as [idx|] eqn:Hv; cbn.
  { split; [intros []|intros [H _]; discriminate H]. }
  build_cases; rewrite ?Hv;
    (split;
     [ intros H; first [ in_log H; fail | split; [reflexivity|discriminate] ]
     | intros [_ H]; first [ now elim H | find_in ] ]).
Qed.

(** What the build handler calls, as far as it gets. *)
Lemma embed_call_means_success_path env files st ds :
  In (Call (EmbedDocuments ds)) (log (create_vector_store env files st)) ->
  ds <> []
  /\ Py.truthy_list files = true
  /\ vectors st = None
  /\ embeddings_init env = Ok tt
  /\ exists pages,
       loader_load env census_directory = Ok pages
       /\ split_documents env pages = Ok ds
       /\ calls_of (log (create_vector_store env files st))
          = [InitEmbeddings; LoadDirectory census_directory;
             SplitDocuments pages; EmbedDocuments ds].
Proof.
  unfold_run. destruct files as [|f files]; cbn.
  { intros H. in_log H. }
  destruct (vectors st) as [idx|] eqn:Hv; cbn.
  { intros []. }
  build_cases; intros H; in_log H; injection H as <-;
    (split; [discriminate|]);
    repeat (split; [reflexivity|]);
    eexists; repeat split; eassumption.
Qed.

(** The build handler embeds documents only when it found no index, was
    given a file, and got at least one chunk. *)
Lemma build_embeds_only_chunks env files st ds :
  let r := create_vector_store env files st in
  In (Call (EmbedDocuments ds)) (log r) ->
  ds <> []
  /\ files <> []
  /\ vectors st = None
  /\ exists pages,
       loader_load env census_directory = Ok pages
       /\ split_documents env pages = Ok ds
       /\ calls_of (log r)
          = [InitEmbeddings; LoadDirectory "./us_census";
             SplitDocuments pages; EmbedDocuments ds].
Proof.
  intros r H. subst r.
  destruct (embed_call_means_success_path _ _ _ _ H)
    as [Hne [Hf [Hv [_ [pages [Hl [Hs Hc]]]]]]].
  split; [exact Hne|]. split; [|split; [exact Hv|]].
  - intros ->. discriminate Hf.
  - exists pages. auto.
Qed.

(** A build in which a call raised ends without an index, and keeps in the
    store what it had obtained before the call that raised. *)
Lemma raising_build_leaves_none env files st c cause :
  In (Call c) (log (create_vector_store env files st)) ->
  raised env c = Some cause ->
  vectors (session (create_vector_store env files st)) = None
  /\ match c with
     | SplitDocuments pages =>
         docs (session (create_vector_store env files st)) = Some pages
     | EmbedDocuments chunks =>
         final_documents (session (create_vector_store env files st))
         = Some chunks
     | _ => True
     end.
Proof.
  unfold_run. destruct files as [|f files]; cbn.
  { intros Hin. in_log Hin. }
  destruct (vectors st) eqn:Hv; cbn.
  { intros []. }
  build_cases; intros Hin Hr; in_log Hin;
    injection Hin as <-; cbn in Hr;
    repeat match goal with
           | E : _ = _, R : cause_of ?x = Some _ |- _ =>
               rewrite E in R; cbn in R
           end;
    try discriminate Hr; split; auto.
Qed.

(** X15: a build that failed does not stand in the way of the next one:
    pressing the button again, once the collaborators answer, installs the
    index over the chunks they return then. *)
Theorem failed_build_can_be_retried
  env1 files1 st c cause env2 files2 pages chunks vs :
  let r1 := create_vector_store env1 files1 st in
  In (Call c) (log r1) ->
  raised env1 c = Some cause ->
  Py.truthy_list files2 = true ->
  embeddings_init env2 = Ok tt ->
  loader_load env2 census_directory = Ok pages ->
  split_documents env2 pages = Ok chunks ->
  chunks <> [] ->
  embed_documents env2 chunks = Ok vs ->
  let r2 := create_vector_store env2 files2 (session r1) in
  vectors (session r2) = Some (mkVectorIndex chunks vs)
  /\ In (SidebarSuccess "Vector Store is ready!") (log r2).
Proof.
  intros r1 Hin Hr Hf Hi Hl Hs Hne He r2. subst r1 r2.
  destruct (raising_build_leaves_none _ _ _ _ _ Hin Hr) as [Hv _].
  rewrite (build_succeeds _ _ _ _ _ _ Hf Hv Hi Hl Hs Hne He).
  split; [reflexivity|find_in].
Qed.

Lemma failed_build_can_be_retried_witness :
  vectors
    (session
       (create_vector_store
          (Sample.env Sample.census Sample.chain_answers) Sample.sky_upload
          (session (create_vector_store Sample.env_embedding_down
                                        Sample.sky_upload fresh_session))))
  = Some (mkVectorIndex Sample.census (map Sample.vector_of Sample.census)).
Proof.
  apply (failed_build_can_be_retried
           Sample.env_embedding_down Sample.sky_upload fresh_session
           (EmbedDocuments Sample.census) "429 quota exceeded"
           (Sample.env Sample.census Sample.chain_answers) Sample.sky_upload
           Sample.census Sample.census
           (map Sample.vector_of Sample.census));
    try reflexivity.
  - cbn. do 4 right. left. reflexivity.
  - discriminate.
Defined.

(** X16: a build whose embedding call raises leaves no index but is not
    undone: the loaded pages and the chunks stay in the session fields
    'docs' and 'final_documents', with the loader path and the splitter
    settings. *)
Theorem failed_embedding_keeps_loaded_chunks env files st chunks cause :
  let r := create_vector_store env files st in
  In (Call (EmbedDocuments chunks)) (log r) ->
  embed_documents env chunks = Raise cause ->
  vectors (session r) = None
  /\ final_documents (session r) = Some chunks
  /\ loader (session r) = Some "./us_census"
  /\ text_splitter (session r) = Some (1000, 200)
  /\ exists pages,
       docs (session r) = Some pages
       /\ split_documents env pages = Ok chunks.
Proof.
  intros r Hin He. subst r.
  destruct (embed_call_means_success_path _ _ _ _ Hin)
    as [Hne [Hf [Hv [Hi [pages [Hl [Hs _]]]]]]].
  clear Hin. unfold_run. rewrite Hf, Hv, Hi, Hl. cbn. rewrite Hs.
  destruct chunks as [|c chunks]; [congruence|]. cbn. rewrite He. cbn.
  repeat split; auto. exists pages. split; [reflexivity|exact Hs].
Qed.

Lemma failed_embedding_keeps_loaded_chunks_witness :
  final_documents
    (session (create_vector_store Sample.env_embedding_down
                                  Sample.sky_upload fresh_session))
  = Some Sample.census.
Proof.
  apply (failed_embedding_keeps_loaded_chunks
           Sample.env_embedding_down Sample.sky_upload fresh_session
           Sample.census "429 quota exceeded").
  - cbn. do 4 right. left. reflexivity.
  - reflexivity.
Defined.

(** X17: when the button is pressed with a question in the box, no index
    yet, and the build succeeds, the same run answers the question against
    the index just built: after the four calls of the build come the calls
    of one chain invocation on that index. *)
Theorem build_then_ask_same_run env inp st pages chunks vs :
  create_clicked inp = true ->
  Py.truthy_list (uploaded_files inp) = true ->
  Py.truthy_str (prompt1 inp) = true ->
  vectors st = None ->
  embeddings_init env = Ok tt ->
  loader_load env census_directory = Ok pages ->
  split_documents env pages = Ok chunks ->
  chunks <> [] ->
  embed_documents env chunks = Ok vs ->
  let r := run_script env inp st in
  vectors (session r) = Some (mkVectorIndex chunks vs)
  /\ calls_of (log r)
     = [InitEmbeddings; LoadDirectory "./us_census"; SplitDocuments pages;
        EmbedDocuments chunks]
       ++ fst (retrieval_chain env (mkVectorIndex chunks vs) (prompt1 inp)).
Proof.
  intros Hc Hf Hq Hv Hi Hl Hs Hne He r. subst r.
  rewrite run_script_vectors, run_script_calls, Hq.
  destruct (sidebar_run env inp st) as [Hss Hsl].
  rewrite Hss, Hsl, Hc.
  rewrite (build_succeeds _ _ _ _ _ _ Hf Hv Hi Hl Hs Hne He).
  split; reflexivity.
Qed.

Lemma build_then_ask_same_run_witness :
  calls_of
    (log (run_script (Sample.env Sample.census Sample.chain_answers)
                     (mkInputs Sample.sky_upload true "How many?" 1)
                     fresh_session))
  = [InitEmbeddings; LoadDirectory "./us_census";
     SplitDocuments Sample.census; EmbedDocuments Sample.census;
     Retrieve (mkVectorIndex Sample.census
                             (map Sample.vector_of Sample.census))
              "How many?";
     ChatModel Sample.census "How many?"].
Proof.
  apply (build_then_ask_same_run
           (Sample.env Sample.census Sample.chain_answers)
           (mkInputs Sample.sky_upload true "How many?" 1)
           fresh_session Sample.census Sample.census
           (map Sample.vector_of Sample.census));
    try reflexivity.
  discriminate.
Defined.

(** ** What the output section shows *)

(** What the sidebar can render. *)
Lemma sidebar_log_kinds env inp st e :
  In e (log (sidebar env inp st)) ->
  match e with
  | Call _ | StSpinner _ | StError _ | SidebarError _ | SidebarSuccess _
  | SidebarTitle _ => True
  | _ => False
  end.
Proof.
  unfold_run. cbn. destruct (create_clicked inp); cbn.
  2:{ intros [<-|[]]. exact I. }
  destruct (uploaded_files inp); cbn.
  { intros [<-|[<-|[]]]; exact I. }
  destruct (vectors st); cbn.
  { intros [<-|[]]. exact I. }
  build_cases; intros H;
    repeat (destruct H as [<-|H]; [exact I|]); contradiction H.
Qed.

(** Where an entry of a run's log comes from. *)
Lemma run_log_origin env inp st e :
  In e (log (run_script env inp st)) ->
  In e (log (sidebar env inp st))
  \/ In e [StTitle "📄 Document Q&A Model"; StMarkdown custom_css;
           StSubheader "Ask a Question"]
  \/ In e (log (output_section env inp (session (sidebar env inp st))))
  \/ exists shown, In e (history_panel shown).
Proof.
  rewrite run_script_sections. cbv zeta.
  pose proof (history_section_run
                inp (session (output_section
                                env inp (session (sidebar env inp st)))))
    as Hh.
  cbv zeta in Hh. destruct Hh as [_ [_ [_ Hl]]].
  destruct (outcome (output_section env inp (session (sidebar env inp st))));
    cbn [log]; rewrite ?Hl; intros H;
    repeat (apply in_app_or in H; destruct H as [H|H]); eauto 6.
Qed.

Lemma history_panel_kinds shown e :
  In e (history_panel shown) ->
  match e with
  | StSubheader _ | StMarkdown _ | StWrite _ => True
  | _ => False
  end.
Proof.
  unfold history_panel. intros [<-|[<-|H]]; try exact I.
  apply in_app_or in H. destruct H as [H|[<-|[]]]; [|exact I].
  apply in_map_iff in H. destruct H as [q [<- _]]. exact I.
Qed.

(** X18: the download button is offered only when the chain's response has
    both a context entry and an answer entry, and the text it offers is
    that answer, the same text the run shows under "Answer:"; it never
    offers the "No answer found." placeholder. *)
Theorem download_offers_shown_answer env inp st data :
  let r := run_script env inp st in
  In (DownloadButton data) (log r) ->
  In (StWrite data) (log r)
  /\ Py.truthy_str (prompt1 inp) = true
  /\ exists idx response,
       vectors (session (sidebar env inp st)) = Some idx
       /\ snd (retrieval_chain env idx (prompt1 inp)) = Ok response
       /\ r_answer response = Some data
       /\ r_context response <> None.
Proof.
  intros r H. subst r.
  assert (Hout : In (DownloadButton data)
                    (log (output_section env inp
                                         (session (sidebar env inp st))))).
  { apply run_log_origin in H. destruct H as [H|[H|[H|[shown H]]]].
    - now apply sidebar_log_kinds in H.
    - in_log H.
    - exact H.
    - now apply history_panel_kinds in H. }
  clear H.
  assert (Hgoal : In (StWrite data)
                     (log (output_section env inp
                                          (session (sidebar env inp st))))
                  /\ Py.truthy_str (prompt1 inp) = true
                  /\ exists idx response,
                       vectors (session (sidebar env inp st)) = Some idx
                       /\ snd (retrieval_chain env idx (prompt1 inp))
                          = Ok response
                       /\ r_answer response = Some data
                       /\ r_context response <> None).
  { revert Hout. generalize (session (sidebar env inp st)) as s. intros s.
    unfold_run. destruct (Py.truthy_str (prompt1 inp)); cbn.
    2:{ intros H. in_log H. }
    destruct (vectors s) as [idx|]; cbn.
    2:{ intros H. in_log H. }
    destruct (retrieval_chain env idx (prompt1 inp))
      as [calls [resp|c]] eqn:E; cbn.
    2:{ intros H. in_log H. rewrite ?app_nil_r in H.
        apply in_map_iff in H. destruct H as [x [H _]]. discriminate H. }
    destruct resp as [[context|] [answer|]]; cbn; intros H; in_log H;
      (apply in_app_or in H; destruct H as [H|H];
       [apply in_map_iff in H; destruct H as [x [H _]]; discriminate H|]);
      in_log H.
    - apply in_app_or in H. destruct H as [H|H].
      + apply in_flat_map in H. destruct H as [[i d] [_ H]].
        cbn in H. in_log H.
      + in_log H. injection H as <-.
        split; [|split; [reflexivity|]].
        * right. apply in_or_app. right. find_in.
        * exists idx, (mkResponse (Some context) (Some answer)).
          rewrite E. repeat split. discriminate.
    - rewrite ?app_nil_r in H.
      apply in_flat_map in H. destruct H as [[i d] [_ H]].
      cbn in H. in_log H. }
  destruct Hgoal as [Hw Hrest]. split; [|exact Hrest].
  now apply output_log_in_run.
Qed.

Lemma download_offers_shown_answer_witness :
  In (StWrite "About 92 percent.")
     (log (run_script (Sample.env Sample.census Sample.chain_answers)
                      (Sample.ask "How many?") Sample.indexed)).
Proof.
  apply (download_offers_shown_answer
           (Sample.env Sample.census Sample.chain_answers)
           (Sample.ask "How many?") Sample.indexed "About 92 percent.").
  find_in.
Defined.

Lemma headings_of_app l1 l2 :
  headings_of (l1 ++ l2) = headings_of l1 ++ headings_of l2.
Proof. apply flat_map_app. Qed.

Lemma headings_of_cons e l :
  headings_of (e :: l)
  = (match e with DocumentHeading i => [i] | _ => [] end) ++ headings_of l.
Proof. reflexivity. Qed.

Lemma headings_of_nil : headings_of [] = [].
Proof. reflexivity. Qed.

Lemma headings_of_none l :
  (forall i, ~ In (DocumentHeading i) l) -> headings_of l = [].
Proof.
  induction l as [|e l IH]; intros H; [reflexivity|].
  change (headings_of (e :: l))
    with ((match e with DocumentHeading i => [i] | _ => [] end)
          ++ headings_of l).
  rewrite IH by (intros i Hi; apply (H i); now right).
  destruct e; try reflexivity. elim (H i). now left.
Qed.

Lemma headings_of_entries entries :
  headings_of (flat_map render_entry entries) = map fst entries.
Proof.
  induction entries as [|[i d] entries IH]; [reflexivity|].
  cbn [flat_map map fst]. rewrite headings_of_app, IH. reflexivity.
Qed.

(** The numbers on a page are at most five and are positions of chunks. *)
Lemma page_numbers_bounds (docs : list Document) (p : Z) :
  1 <= p ->
  (length (map fst (page_entries docs p 5)) <= 5)%nat
  /\ forall i, In i (map fst (page_entries docs p 5)) ->
               1 <= i <= Py.len docs.
Proof.
  intros Hp.
  assert (Hj : exists j, p = Z.of_nat (S j))
    by (exists (Z.to_nat (p - 1)); lia).
  destruct Hj as [j ->]. rewrite page_entries_shape, enumerate_fst.
  rewrite length_map, length_seq, length_firstn, length_skipn.
  split; [lia|]. intros i Hi. apply in_map_iff in Hi.
  destruct Hi as [k [<- Hk]]. apply in_seq in Hk. unfold Py.len. lia.
Qed.

(** The headings of a run are those of its output section. *)
Lemma run_script_headings env inp st :
  headings_of (log (run_script env inp st))
  = headings_of
      (log (output_section env inp (session (sidebar env inp st)))).
Proof.
  rewrite run_script_sections. cbv zeta.
  pose proof (history_section_run
                inp (session (output_section
                                env inp (session (sidebar env inp st)))))
    as Hh.
  cbv zeta in Hh. destruct Hh as [_ [_ [_ Hl]]].
  assert (Hsb : headings_of (log (sidebar env inp st)) = []).
  { apply headings_of_none. intros i Hi.
    now apply sidebar_log_kinds in Hi. }
  assert (Hhp : forall shown, headings_of (history_panel shown) = []).
  { intros shown. apply headings_of_none. intros i Hi.
    now apply history_panel_kinds in Hi. }
  destruct (outcome (output_section env inp (session (sidebar env inp st))));
    cbn [log]; rewrite ?Hl, !headings_of_app, ?Hhp, Hsb;
    cbn; now rewrite ?app_nil_r.
Qed.

(** X19: a run shows at most five documents, and every document number it
    shows is a position 1 .. N in the context of the chain's response, so a
    run without an index, without a question or without a context entry
    shows no document. *)
Theorem shown_documents_bounds env inp st :
  let r := run_script env inp st in
  (length (headings_of (log r)) <= 5)%nat
  /\ forall i,
       In i (headings_of (log r)) ->
       Py.truthy_str (prompt1 inp) = true
       /\ exists idx response context,
            vectors (session (sidebar env inp st)) = Some idx
            /\ snd (retrieval_chain env idx (prompt1 inp)) = Ok response
            /\ r_context response = Some context
            /\ 1 <= i <= Py.len context.
Proof.
  cbv zeta. rewrite run_script_headings.
  generalize (session (sidebar env inp st)) as s. intros s.
  unfold_run. destruct (Py.truthy_str (prompt1 inp)); cbn.
  2:{ split; [lia|intros i []]. }
  destruct (vectors s) as [idx|]; cbn.
  2:{ split; [lia|intros i []]. }
  assert (Hcalls : forall calls, headings_of (map Call calls) = []).
  { intros calls. apply headings_of_none. intros i Hi.
    apply in_map_iff in Hi. destruct Hi as [x [Hx _]]. discriminate Hx. }
  destruct (retrieval_chain env idx (prompt1 inp))
    as [calls [resp|c]] eqn:E;
    [destruct resp as [[context|] [answer|]]|];
    cbn -[headings_of app page_entries total_pages admits];
    repeat progress
      (rewrite ?headings_of_cons, ?headings_of_app, ?Hcalls,
         ?headings_of_entries, ?headings_of_nil);
    cbn -[page_entries total_pages admits]; rewrite ?app_nil_r;
    try (split; [lia|intros i []]).
  all: match goal with
       | |- context [page_entries ?ctx ?p 5] =>
           assert (Hp : 1 <= p)
             by (unfold admits;
                 destruct (1 <=? page_choice inp) eqn:Hle; cbn; [|lia];
                 destruct (page_choice inp <=? total_pages ctx);
                 [apply Z.leb_le in Hle; exact Hle|lia]);
           destruct (page_numbers_bounds ctx p Hp) as [Hlen Hin];
           split; [exact Hlen|];
           intros i Hi; split; [reflexivity|];
           eexists idx, _, ctx; rewrite E;
           repeat split; apply (Hin i Hi)
       end.
Qed.

(** X20: whatever the documents say, every summary a run shows is the same
    fixed placeholder text of generate_insights; summaries appear only in
    the output section of a run that got a context entry. *)
Theorem summaries_are_placeholders env inp st text :
  let r := run_script env inp st in
  In (StWriteSummary text) (log r) ->
  text = "Summary of the document..."
  /\ (forall content, generate_insights content = text)
  /\ exists idx response,
       vectors (session (sidebar env inp st)) = Some idx
       /\ snd (retrieval_chain env idx (prompt1 inp)) = Ok response
       /\ r_context response <> None.
Proof.
  intros r H. subst r.
  assert (Hout : In (StWriteSummary text)
                    (log (output_section env inp
                                         (session (sidebar env inp st))))).
  { apply run_log_origin in H. destruct H as [H|[H|[H|[shown H]]]].
    - now apply sidebar_log_kinds in H.
    - in_log H.
    - exact H.
    - now apply history_panel_kinds in H. }
  clear H. revert Hout.
  generalize (session (sidebar env inp st)) as s. intros s.
  unfold_run. destruct (Py.truthy_str (prompt1 inp)); cbn.
  2:{ intros H. in_log H. }
  destruct (vectors s) as [idx|]; cbn.
  2:{ intros H. in_log H. }
  destruct (retrieval_chain env idx (prompt1 inp))
    as [calls [resp|c]] eqn:E;
    [destruct resp as [[context|] [answer|]]|]; cbn; intros H; in_log H;
    rewrite ?app_nil_r in H;
    try (apply in_app_or in H; destruct H as [H|H]);
    try (apply in_map_iff in H; destruct H as [x [H _]]; discriminate H);
    in_log H;
    try (apply in_app_or in H; destruct H as [H|H]; [|in_log H]);
    (apply in_flat_map in H; destruct H as [[i d] [_ H]];
     cbn in H; in_log H; injection H as <-;
     split; [reflexivity|]; split; [reflexivity|];
     eexists idx, _; rewrite E; repeat split; discriminate).
Qed.

Lemma summaries_are_placeholders_witness :
  generate_insights "Health insurance coverage by state."
  = "Summary of the document...".
Proof.
  assert (H : In (StWriteSummary "Summary of the document...")
                 (log (run_script
                         (Sample.env Sample.census Sample.chain_answers)
                         (Sample.ask "How many?") Sample.indexed)))
    by find_in.
  exact (proj1 (proj2 (summaries_are_placeholders
                         (Sample.env Sample.census Sample.chain_answers)
                         (Sample.ask "How many?") Sample.indexed
                         "Summary of the document..." H))
               "Health insurance coverage by state.").
Defined.

(** * The whole script *)

(** ** The retriever of the store *)

Section Sorting.
Context {A : Type} (key : A -> Z).





End Sorting.




(** With one vector per document the entries are the documents paired
    with their vectors. *)
Lemma pair_vectors_combine documents :
  forall vs, length vs = length documents ->
             pair_vectors documents vs = combine documents vs.
Proof.
  induction documents as [|d documents IH]; intros [|v vs] H;
    try discriminate H; [reflexivity|].
  cbn. f_equal. apply IH. now injection H.
Qed.



(** What the chain of the script calls, and what it returns. *)
Lemma app_chain_calls w idx q c :
  In c (fst (app_chain w idx q)) ->
  c = Retrieve idx q
  \/ c = EmbedQuery q
  \/ exists qv,
       embeddings_embed_query w q = Ok qv
       /\ c = ChatModel (similarity_search idx qv retriever_k) q.
Proof.
  unfold app_chain. cbv zeta.
  destruct (embeddings_embed_query w q) as [qv|e];
    [destruct (llm w (similarity_search idx qv retriever_k) q)|];
    cbn [fst In]; intros H;
    repeat (destruct H as [<-|H]; [eauto 6|]); contradiction H.
Qed.

Lemma app_chain_result w idx q :
  snd (app_chain w idx q)
  = match embeddings_embed_query w q with
    | Raise c => Raise c
    | Ok qv =>
        match llm w (similarity_search idx qv retriever_k) q with
        | Raise c => Raise c
        | Ok answer =>
            Ok (mkResponse (Some (similarity_search idx qv retriever_k))
                           (Some answer))
        end
    end.
Proof.
  unfold app_chain. cbv zeta.
  destruct (embeddings_embed_query w q) as [qv|e]; [|reflexivity].
  destruct (llm w (similarity_search idx qv retriever_k) q); reflexivity.
Qed.

(** ** A run from line 15 *)

(** When the configuration is read the run is the run from line 24 on;
    otherwise it stops before rendering or storing anything. *)
Lemma app_py_run w inp st :
  app_py w inp st
  = match configure w with
    | Ok _ => run_script (env_of w) inp st
    | Raise cause => mkRun (Raise cause) st []
    end.
Proof.
  unfold app_py, configuration, bind, ret, raise.
  destruct (configure w); [|reflexivity].
  destruct (run_script (env_of w) inp st). reflexivity.
Qed.

Lemma app_py_log w inp st e :
  In e (log (app_py w inp st)) -> In e (log (run_script (env_of w) inp st)).
Proof.
  rewrite app_py_run. destruct (configure w); [auto|intros []].
Qed.



(** The store reached by a session of whole runs keeps the index and its
    chunks together. *)
Lemma app_py_well_built w inp st :
  well_built st -> well_built (session (app_py w inp st)).
Proof.
  intros Hw. rewrite app_py_run. destruct (configure w); [|exact Hw].
  now apply run_script_well_built.
Qed.


(** ** The chat model and the retrieved context *)

Lemma chain_of_env_of w : retrieval_chain (env_of w) = app_chain w.
Proof. reflexivity. Qed.




(** ** The page control of an answer *)




(** ** What display_documents displays *)

(** The documents displayed by the rendering of numbered entries are these
    entries: number and text. *)
Lemma shown_documents_entries entries rest :
  shown_documents (flat_map render_entry entries ++ rest)
  = map entry_shown entries ++ shown_documents rest.
Proof.
  induction entries as [|[i d] entries IH]; [reflexivity|].
  cbn [flat_map render_entry app map]. cbn [shown_documents].
  unfold entry_shown at 1. cbn [fst snd]. f_equal. exact IH.
Qed.

Lemma display_documents_shown docs p s :
  outcome (display_documents docs p 5 s) = Ok tt
  /\ shown_documents (log (display_documents docs p 5 s))
     = map entry_shown (page_entries docs p 5).
Proof.
  split; [reflexivity|].
  unfold display_documents, emit_all. cbn [log].
  rewrite <- (app_nil_r (flat_map render_entry (page_entries docs p 5))).
  rewrite shown_documents_entries. cbn [shown_documents]. apply app_nil_r.
Qed.

Lemma displayed_pages_shown docs s pages :
  shown_documents
    (concat (map (fun p => log (display_documents docs p 5 s)) pages))
  = map entry_shown (concat (map (fun p => page_entries docs p 5) pages)).
Proof.
  induction pages as [|p pages IH]; [reflexivity|].
  cbn [map concat]. unfold display_documents at 1, emit_all. cbn [log].
  now rewrite shown_documents_entries, IH, map_app.
Qed.

Lemma enumerate_numbered docs :
  forall k : nat,
    map entry_shown (Py.enumerate docs (Z.of_nat k))
    = combine (map Z.of_nat (seq k (length docs))) (map page_content docs).
Proof.
  induction docs as [|d docs IH]; intros k; [reflexivity|].
  cbn. unfold entry_shown at 1. cbn. f_equal.
  replace (Z.of_nat k + 1) with (Z.of_nat (S k)) by lia. apply IH.
Qed.

Lemma numbered_spec docs :
  map entry_shown (Py.enumerate docs 1) = numbered docs
  /\ map snd (numbered docs) = map page_content docs
  /\ map fst (numbered docs) = map Z.of_nat (seq 1 (length docs)).
Proof.
  unfold numbered. split; [exact (enumerate_numbered docs 1)|].
  assert (Hl : length (map Z.of_nat (seq 1 (length docs)))
               = length (map page_content docs))
    by now rewrite !length_map, length_seq.
  split.
  - clear -Hl. revert Hl.
    generalize (map Z.of_nat (seq 1 (length docs))) as a.
    generalize (map page_content docs) as b.
    induction b as [|y b IH]; intros [|x a] H; try discriminate H;
      [reflexivity|]. cbn. f_equal. apply IH. now injection H.
  - clear -Hl. revert Hl.
    generalize (map Z.of_nat (seq 1 (length docs))) as a.
    generalize (map page_content docs) as b.
    induction b as [|y b IH]; intros [|x a] H; try discriminate H;
      [reflexivity|]. cbn. f_equal. apply IH. now injection H.
Qed.

(** C5: for every list of N chunks, what display_documents displays on the
    pages 1 .. ceil(N/5), page after page, is every chunk exactly once:
    the texts of the N chunks in order, under the numbers 1 .. N. *)
Theorem displayed_pages_show_every_chunk_once
  (docs : list Document) (s : SessionState) :
  let valid_pages := pages_upto (ceil_pages (Py.len docs)) in
  let displayed :=
    concat (map (fun p => log (display_documents docs p 5 s)) valid_pages) in
  shown_documents displayed = numbered docs
  /\ map snd (shown_documents displayed) = map page_content docs
  /\ map fst (shown_documents displayed)
     = map Z.of_nat (seq 1 (length docs)).
Proof.
  cbv zeta. rewrite displayed_pages_shown.
  rewrite (proj1 (proj2 (page_slices_tile docs))).
  destruct (numbered_spec docs) as [-> [H1 H2]]. auto.
Qed.

(** X2: on a page p >= 1, display_documents displays
    min(5, max(0, N - 5(p-1))) documents, so never more than five: the
    texts of the chunks from position 5(p-1) on, in order, under the
    consecutive numbers 5(p-1)+1, 5(p-1)+2, ... *)
Theorem displayed_page_has_at_most_five
  (docs : list Document) (p : Z) (s : SessionState) :
  1 <= p ->
  let shown := shown_documents (log (display_documents docs p 5 s)) in
  Py.len shown = Z.min 5 (Z.max 0 (Py.len docs - 5 * (p - 1)))
  /\ map snd shown
     = map page_content (firstn 5 (skipn (Z.to_nat (5 * (p - 1))) docs))
  /\ map fst shown
     = map (fun i => 5 * (p - 1) + 1 + Z.of_nat i) (seq 0 (length shown)).
Proof.
  intros Hp shown. subst shown.
  rewrite (proj2 (display_documents_shown docs p s)).
  destruct (page_entries_of_page docs p Hp) as [H1 [H2 H3]].
  cbv zeta in *. unfold Py.len in *. rewrite !length_map in *.
  split; [exact H1|]. split.
  - rewrite <- H2, !map_map. reflexivity.
  - rewrite <- H3, !map_map. reflexivity.
Qed.

Lemma displayed_page_has_at_most_five_witness :
  map fst (shown_documents
             (log (display_documents Worlds.docs7 2 5 fresh_session)))
  = [6; 7].
Proof.
  apply (displayed_page_has_at_most_five Worlds.docs7 2 fresh_session).
  lia.
Defined.

(** X3: on the last page the control admits (page total_pages),
    display_documents displays N mod 5 documents, so nothing exactly when N
    is a multiple of five (N = 0 included); on every admitted page before
    it, it displays five. *)
Theorem last_page_displays_remainder
  (context : list Document) (s : SessionState) :
  let displayed p := shown_documents (log (display_documents context p 5 s)) in
  Py.len (displayed (total_pages context)) = Py.len context mod 5
  /\ (displayed (total_pages context) = [] <-> Py.len context mod 5 = 0)
  /\ (forall p, 1 <= p < total_pages context -> Py.len (displayed p) = 5).
Proof.
  cbv zeta. destruct (last_page_entries context) as [H1 [H2 H3]].
  assert (Hlen : forall p,
             Py.len (shown_documents
                       (log (display_documents context p 5 s)))
             = Py.len (page_entries context p 5)).
  { intros p. rewrite (proj2 (display_documents_shown context p s)).
    unfold Py.len. now rewrite length_map. }
  split; [now rewrite Hlen|]. split.
  - rewrite <- H2, (proj2 (display_documents_shown context _ s)).
    destruct (page_entries context (total_pages context) 5); cbn;
      split; congruence.
  - intros p Hp. rewrite Hlen. now apply H3.
Qed.

(** X4: over the pages 1 .. total_pages that the control admits, what
    display_documents displays, page after page, is every chunk of the
    context exactly once: the texts in order under the numbers 1 .. N. *)
Theorem admitted_pages_display_every_chunk_once
  (context : list Document) (s : SessionState) :
  let displayed :=
    concat (map (fun p => log (display_documents context p 5 s))
                (pages_upto (total_pages context))) in
  shown_documents displayed = numbered context
  /\ map snd (shown_documents displayed) = map page_content context.
Proof.
  cbv zeta. rewrite displayed_pages_shown.
  rewrite (proj1 (admitted_pages_entries context)).
  destruct (numbered_spec context) as [-> [H1 _]]. auto.
Qed.

(** ** Runs that raise, runs without a question, from line 15 *)

(** What the sidebar calls are calls of the build. *)
Lemma sidebar_calls_are_build_calls env inp st c :
  In (Call c) (log (sidebar env inp st)) ->
  match c with
  | InitEmbeddings | LoadDirectory _ | SplitDocuments _ | EmbedDocuments _ =>
      True
  | _ => False
  end.
Proof.
  unfold_run. cbn. destruct (create_clicked inp); cbn.
  2:{ intros H. in_log H. }
  destruct (uploaded_files inp); cbn.
  { intros H. in_log H. }
  destruct (vectors st); cbn.
  { intros H. in_log H. }
  build_cases; intros H; in_log H; injection H as <-; exact I.
Qed.

(** X8: an execution of app.py ends with an uncaught exception in exactly
    these situations: GOOGLE_API_KEY is not set (the assignment of line 19
    raises a TypeError); the ChatGroq constructor of line 22 raises; or a
    question is submitted with an index in place and the retriever's
    embed_query or the chat model raises, the run raising the same. *)
Theorem app_py_raises_iff w inp st cause :
  outcome (app_py w inp st) = Raise cause
  <-> (google_api_key w = None /\ cause = "str expected, not NoneType")
      \/ (google_api_key w <> None
          /\ ChatGroq w (groq_api_key w) = Raise cause)
      \/ (configure w = Ok tt
          /\ Py.truthy_str (prompt1 inp) = true
          /\ exists idx,
               vectors (session (sidebar (env_of w) inp st)) = Some idx
               /\ (embeddings_embed_query w (prompt1 inp) = Raise cause
                   \/ exists qv,
                        embeddings_embed_query w (prompt1 inp) = Ok qv
                        /\ llm w (similarity_search idx qv retriever_k)
                               (prompt1 inp)
                           = Raise cause)).
Proof.
  rewrite app_py_run. unfold configure.
  destruct (google_api_key w) as [key|]; cbv beta iota.
  2:{ split.
      - intros H. injection H as <-. left. split; reflexivity.
      - intros [[_ ->]|[[H _]|[H _]]];
          [reflexivity|now elim H|discriminate H]. }
  destruct (ChatGroq w (groq_api_key w)) as [[]|c]; cbv beta iota.
  2:{ split.
      - intros H. injection H as <-. right. left.
        split; [discriminate|reflexivity].
      - intros [[H _]|[[_ H]|[H _]]];
          [discriminate H|now injection H as <-|discriminate H]. }
  rewrite run_raises_iff. split.
  - intros [Hq [idx [Hv H]]]. right. right.
    split; [reflexivity|]. split; [exact Hq|].
    exists idx. split; [exact Hv|].
    rewrite chain_of_env_of, app_chain_result in H.
    destruct (embeddings_embed_query w (prompt1 inp)) as [qv|e].
    + destruct (llm w (similarity_search idx qv retriever_k) (prompt1 inp))
        as [a|e] eqn:El.
      * destruct H as [H|[resp [H [_ [Ha _]]]]]; [discriminate H|].
        injection H as <-. discriminate Ha.
      * destruct H as [H|[resp [H _]]]; [|discriminate H].
        injection H as <-. right. exists qv. split; [reflexivity|exact El].
    + destruct H as [H|[resp [H _]]]; [|discriminate H].
      injection H as <-. now left.
  - intros [[H _]|[[_ H]|[_ [Hq [idx [Hv H]]]]]];
      [discriminate H|discriminate H|].
    split; [exact Hq|]. exists idx. split; [exact Hv|]. left.
    rewrite chain_of_env_of, app_chain_result.
    destruct H as [->|[qv [-> ->]]]; reflexivity.
Qed.

(** X9: an execution of app.py with an empty question box, once the
    configuration is read: it completes, shows the invitation to enter a
    question, calls only what the build calls (so neither the retriever,
    the embedding of a question nor the chat model), and leaves the content
    of the history as it was.  When the configuration raises, it raises
    before anything is rendered, called or stored. *)
Theorem app_py_without_question w inp st :
  prompt1 inp = "" ->
  let r := app_py w inp st in
  (configure w = Ok tt ->
   outcome r = Ok tt
   /\ In (StInfo "Please enter a question above to get started.") (log r)
   /\ (forall c, In (Call c) (log r) ->
                 match c with
                 | InitEmbeddings | LoadDirectory _ | SplitDocuments _
                 | EmbedDocuments _ => create_clicked inp = true
                 | _ => False
                 end)
   /\ query_history (session r) = Some (stored_history st))
  /\ (forall cause,
        configure w = Raise cause ->
        outcome r = Raise cause /\ log r = [] /\ session r = st).
Proof.
  intros Hq r. subst r. rewrite app_py_run. split.
  - intros Hc. rewrite Hc.
    destruct (run_without_question (env_of w) inp st Hq)
      as [Ho [Hi [Hcalls [Hh _]]]].
    split; [exact Ho|]. split; [exact Hi|]. split; [|exact Hh].
    intros c H. apply in_calls_of in H. rewrite Hcalls in H.
    apply in_calls_of in H.
    pose proof (sidebar_calls_are_build_calls _ _ _ _ H) as Hk.
    rewrite (proj2 (sidebar_run (env_of w) inp st)) in H.
    destruct (create_clicked inp).
    + destruct c; auto.
    + in_log H.
  - intros cause Hc. rewrite Hc. repeat split.
Qed.

Lemma app_py_without_question_witness :
  outcome (app_py Worlds.working (Sample.press_create Sample.sky_upload)
                  fresh_session)
  = Ok tt
  /\ outcome (app_py Worlds.no_google_key
                     (Sample.press_create Sample.sky_upload) fresh_session)
     = Raise "str expected, not NoneType".
Proof.
  split.
  - apply (app_py_without_question
             Worlds.working (Sample.press_create Sample.sky_upload)
             fresh_session eq_refl).
    reflexivity.
  - apply (app_py_without_question
             Worlds.no_google_key (Sample.press_create Sample.sky_upload)
             fresh_session eq_refl).
    reflexivity.
Defined.

Lemma final_app_session_cons s w inp steps :
  final_session s (app_session ((w, inp) :: steps) s)
  = final_session (session (app_py w inp s))
                  (app_session steps (session (app_py w inp s))).
Proof. cbn [app_session]. apply final_session_cons. Qed.

(** X12: in a session of executions of app.py that starts without an index
    and in which "Create Vector Store" is never pressed, no execution calls
    any external service, an execution raises only when its configuration
    does, and the session ends without an index, whatever is asked. *)
Theorem nothing_called_before_first_build steps :
  forall st,
    vectors st = None ->
    Forall (fun step => create_clicked (snd step) = false) steps ->
    Forall2 (fun step r =>
               calls_of (log r) = [] /\ outcome r = configure (fst step))
            steps (app_session steps st)
    /\ vectors (final_session st (app_session steps st)) = None.
Proof.
  induction steps as [|[w inp] steps IH]; intros st Hv Hc.
  - split; [constructor|exact Hv].
  - inversion Hc as [|? ? Hc1 Hc']; subst. cbn [snd] in Hc1.
    rewrite final_app_session_cons. cbn [app_session].
    assert (H : calls_of (log (app_py w inp st)) = []
                /\ outcome (app_py w inp st) = configure w
                /\ vectors (session (app_py w inp st)) = None).
    { rewrite app_py_run.
      destruct (run_without_press (env_of w) inp st Hc1 Hv)
        as [Hv' [Hcalls Ho]].
      destruct (configure w) as [[]|c]; repeat split; assumption. }
    destruct H as [H1 [H2 H3]]. destruct (IH _ H3 Hc') as [IH1 IH2].
    split; [constructor; [split; assumption|exact IH1]|exact IH2].
Qed.

Lemma nothing_called_before_first_build_witness :
  vectors
    (final_session fresh_session
       (app_session [(Worlds.working, Sample.ask "q1");
                     (Worlds.no_google_key, Sample.ask "q2")]
                    fresh_session))
  = None.
Proof.
  apply (nothing_called_before_first_build
           [(Worlds.working, Sample.ask "q1");
            (Worlds.no_google_key, Sample.ask "q2")]
           fresh_session).
  - reflexivity.
  - repeat constructor.
Defined.

(** X14: in an execution of app.py the embedding service is called in two
    places only.  Documents are embedded only by a build: the button was
    pressed with at least one uploaded file, the store had no index, and
    the chunks, of which there is at least one, are those the splitter
    returned for the loaded pages.  A question is embedded only by the
    retriever, and it is the question of the run, submitted with an index
    in place. *)
Theorem embedding_service_calls w inp st :
  let r := app_py w inp st in
  (forall chunks,
     In (Call (EmbedDocuments chunks)) (log r) ->
     chunks <> []
     /\ create_clicked inp = true
     /\ uploaded_files inp <> []
     /\ vectors st = None
     /\ exists pages,
          PyPDFDirectoryLoader_load w "./us_census" = Ok pages
          /\ text_splitter_split w pages = Ok chunks)
  /\ (forall q,
        In (Call (EmbedQuery q)) (log r) ->
        q = prompt1 inp
        /\ Py.truthy_str (prompt1 inp) = true
        /\ exists idx,
             vectors (session (sidebar (env_of w) inp st)) = Some idx).
Proof.
  cbv zeta. split.
  - intros chunks H. apply app_py_log, in_calls_of in H.
    rewrite run_script_calls in H. apply in_app_or in H.
    destruct H as [H|H].
    + apply in_calls_of in H.
      rewrite (proj2 (sidebar_run (env_of w) inp st)) in H.
      destruct H as [H|H]; [discriminate H|].
      destruct (create_clicked inp); [|contradiction H].
      destruct (build_embeds_only_chunks _ _ _ _ H)
        as [Hne [Hf [Hv [pages [Hl [Hs _]]]]]].
      repeat split; auto. exists pages. split; assumption.
    + destruct (Py.truthy_str (prompt1 inp)); [|contradiction H].
      destruct (vectors (session (sidebar (env_of w) inp st))) as [idx|];
        [|contradiction H].
      rewrite chain_of_env_of in H. apply app_chain_calls in H.
      destruct H as [H|[H|[qv [_ H]]]]; discriminate H.
  - intros q H. apply app_py_log, in_calls_of in H.
    rewrite run_script_calls in H. apply in_app_or in H.
    destruct H as [H|H].
    + apply in_calls_of in H.
      now apply sidebar_calls_are_build_calls in H.
    + destruct (Py.truthy_str (prompt1 inp)); [|contradiction H].
      destruct (vectors (session (sidebar (env_of w) inp st))) as [idx|];
        [|contradiction H].
      rewrite chain_of_env_of in H. apply app_chain_calls in H.
      destruct H as [H|[H|[qv [_ H]]]]; try discriminate H.
      injection H as ->. split; [reflexivity|]. split; [reflexivity|].
      now exists idx.
Qed.

(** Every store a session of executions reaches from a new one keeps the
    index and its chunks together: the condition under which the retriever
    is studied above holds of every store the program can be in. *)
Lemma reachable_app_store_is_well_built steps :
  well_built (final_session fresh_session (app_session steps fresh_session)).
Proof.
  assert (H : forall st, well_built st ->
                         well_built (final_session st (app_session steps st))).
  { induction steps as [|[w inp] steps IH]; intros st Hw; [exact Hw|].
    rewrite final_app_session_cons. apply IH. now apply app_py_well_built. }
  apply H. exact I.
Qed.
